(** * The interruption controller of karpenter-provider-aws

    A shallow embedding of [pkg/controllers/interruption/controller.go].

    The controller polls an SQS queue, parses every message, correlates the
    instance ids of the message with the NodeClaims of the cluster and
    remediates (notify, mark the spot offering unavailable, create a
    replacement NodeClaim, delete the NodeClaim), then deletes the message.

    Modelling choices:
    - the collaborators (kube client, SQS provider, event parser, change
      monitor, wall clock) are fields of the [Controller] record or section
      variables; they act on an abstract [World] and may answer differently
      on every call;
    - a computation is a function [World -> A * World * list Effect]: it
      threads the world and returns the effects it requested, in order
      (log lines, metrics, published events, cache marks, and the write
      calls to the cluster and to the queue together with their answer);
    - [workqueue.ParallelizeUntil] runs the pieces with ten workers, each of
      which asks before every piece whether the context of the cycle is done
      and, if so, returns; the model runs the pieces in index order and, once
      the context is done, starts no further piece and leaves the remaining
      entries of [errs] nil. Every piece only talks to the collaborators,
      whose answers are arbitrary, so the per-message statements below are
      stated for an arbitrary world in which the piece starts. *)

From Stdlib Require Import ZArith List Bool Lia.
From stdpp Require Import base option gmap strings list fin_maps.
Import ListNotations.
Open Scope string_scope.
Open Scope list_scope.

(** ** Errors *)

(** A Go [error] value, as far as this controller can observe it: an error
    of a collaborator (with the API status reason it carries, if it is an
    [APIStatus]), an error wrapped by [fmt.Errorf("..., %w", err)], or the
    aggregate built by [go.uber.org/multierr]. [None] at type
    [option error] is Go's [nil]. *)
#[warnings="-register-all"]
Inductive error : Type :=
| ErrLeaf (reason : option string) (text : string)
| ErrWrap (prefix : string) (cause : error)
| ErrMulti (errs : list error).

Inductive result (A : Type) : Type :=
| Ok (a : A)
| Err (e : error).
Arguments Ok {A} a.
Arguments Err {A} e.

Definition StatusReasonNotFound : string := "NotFound".

Definition firstSome {A B : Type} (f : A -> option B) : list A -> option B :=
  fix go (l : list A) : option B :=
    match l with
    | [] => None
    | x :: l' => match f x with Some b => Some b | None => go l' end
    end.

(** [apierrors.ReasonForError]: the reason of the first API status found
    in the chain of the error ([errors.As]). *)
Fixpoint reasonForError (e : error) : option string :=
  match e with
  | ErrLeaf r _ => r
  | ErrWrap _ c => reasonForError c
  | ErrMulti es => firstSome reasonForError es
  end.

Definition IsNotFound (e : error) : bool :=
  match reasonForError e with
  | Some r => String.eqb r StatusReasonNotFound
  | None => false
  end.

(** [client.IgnoreNotFound] *)
Definition IgnoreNotFound (e : error) : option error :=
  if IsNotFound e then None else Some e.

(** multierr flattens one level of nesting. *)
Definition flatten (e : error) : list error :=
  match e with
  | ErrMulti es => es
  | _ => [e]
  end.

Fixpoint nonNil (errs : list (option error)) : list error :=
  match errs with
  | [] => []
  | None :: r => nonNil r
  | Some e :: r => e :: nonNil r
  end.

(** [multierr.Combine] *)
Definition multierr_Combine (errs : list (option error)) : option error :=
  match nonNil errs with
  | [] => None
  | [e] => Some e
  | es => Some (ErrMulti (concat (map flatten es)))
  end.

(** [multierr.Append] *)
Definition multierr_Append (left right : option error) : option error :=
  match left, right with
  | None, _ => right
  | _, None => left
  | Some l, Some r => Some (ErrMulti (flatten l ++ flatten r))
  end.

(** [multierr.Errors]: the errors an aggregate is made of. *)
Definition multierr_Errors (e : option error) : list error :=
  match e with
  | None => []
  | Some err => flatten err
  end.

(** ** Data *)

Inductive Action : Type := CordonAndDrain | NoAction.

Definition Action_string (a : Action) : string :=
  match a with
  | CordonAndDrain => "CordonAndDrain"
  | NoAction => "NoAction"
  end.

(** [messages.Kind] is a string type with five declared constants; any
    other string is [UnknownKind]. *)
Inductive Kind : Type :=
| ScheduledChangeKind
| SpotInterruptionKind
| RebalanceRecommendationKind
| StateChangeKind
| NoOpKind
| UnknownKind (name : string).

Definition Kind_eqb (a b : Kind) : bool :=
  match a, b with
  | ScheduledChangeKind, ScheduledChangeKind => true
  | SpotInterruptionKind, SpotInterruptionKind => true
  | RebalanceRecommendationKind, RebalanceRecommendationKind => true
  | StateChangeKind, StateChangeKind => true
  | NoOpKind, NoOpKind => true
  | UnknownKind x, UnknownKind y => String.eqb x y
  | _, _ => false
  end.

(** Instants are counted in nanoseconds from Go's zero [time.Time]. *)
Definition Time : Type := Z.

(** [metav1.Time.IsZero] on a pointer: nil or the zero instant. *)
Definition Time_IsZero (t : option Time) : bool :=
  match t with
  | None => true
  | Some z => Z.eqb z 0
  end.

(** The capabilities of [messages.Message], with the detail state that
    [statechange.Message] adds. *)
Record Message : Type := mkMessage {
  msgKind : Kind;
  msgEC2InstanceIDs : list string;
  msgStartTime : Time;
  msgDetailState : string
}.

(** [sqsapi.Message] *)
Record SQSMessage : Type := mkSQSMessage {
  sqsMessageId : option string;
  sqsReceiptHandle : option string;
  sqsBody : option string
}.

Record OwnerReference : Type := mkOwnerReference {
  ownerKind : string;
  ownerName : string;
  ownerUID : string
}.

Record NodeClaimSpec : Type := mkNodeClaimSpec {
  specNodeClassRef : string;
  specRequirements : list (string * list string);
  specTaints : list string
}.

Record NodeClaimStatus : Type := mkNodeClaimStatus {
  statusProviderID : string;
  statusNodeName : string;
  statusImageID : string
}.

Record NodeClaim : Type := mkNodeClaim {
  ncName : string;
  ncGenerateName : string;
  ncUID : string;
  ncResourceVersion : string;
  ncDeletionTimestamp : option Time;
  ncFinalizers : list string;
  ncAnnotations : gmap string string;
  ncLabels : gmap string string;
  ncOwnerReferences : list OwnerReference;
  ncSpec : NodeClaimSpec;
  ncStatus : NodeClaimStatus
}.

Record Node : Type := mkNode {
  nodeName : string;
  nodeProviderID : string
}.

Definition zeroStatus : NodeClaimStatus := mkNodeClaimStatus "" "" "".

(** Indexing a Go [map[string]string]: the empty string when absent. *)
Definition label (m : gmap string string) (k : string) : string :=
  default "" (m !! k).

Definition LabelTopologyZone : string := "topology.kubernetes.io/zone".
Definition LabelInstanceTypeStable : string := "node.kubernetes.io/instance-type".
Definition NodePoolLabelKey : string := "karpenter.sh/nodepool".
Definition CapacityTypeLabelKey : string := "karpenter.sh/capacity-type".
Definition CapacityTypeSpot : string := "spot".

(** The constructors of package [interruptionevents]. *)
Inductive EventKind : Type :=
| RebalanceRecommendation
| Unhealthy
| SpotInterrupted
| Stopping
| Terminating
| TerminatingOnInterruption.

(** ** Effects *)

Inductive Effect : Type :=
| LogDebug (text : string)
| LogInfo (text : string)
| LogError (text : string) (e : error)
| ReceivedMessagesInc (k : Kind)
| MessageLatencyObserve (d : Z)
| DeletedMessagesInc
| ActionsPerformedInc (a : Action)
| NodeClaimsTerminatedInc (reason nodepool capacityType : string)
| Publish (ev : EventKind) (n : option Node) (nc : NodeClaim)
| MarkUnavailable (reason : Kind) (instanceType zone capacityType : string)
| KubeCreate (nc : NodeClaim) (res : option error)
| KubeDelete (nc : NodeClaim) (res : option error)
| QueueDelete (m : option SQSMessage) (res : option error).

Definition isQueueDelete (e : Effect) : bool :=
  match e with QueueDelete _ _ => true | _ => false end.
Definition isDeletedMessagesInc (e : Effect) : bool :=
  match e with DeletedMessagesInc => true | _ => false end.
Definition isMarkUnavailable (e : Effect) : bool :=
  match e with MarkUnavailable _ _ _ _ => true | _ => false end.
Definition isKubeCreate (e : Effect) : bool :=
  match e with KubeCreate _ _ => true | _ => false end.
Definition isKubeDelete (e : Effect) : bool :=
  match e with KubeDelete _ _ => true | _ => false end.
Definition isNodeClaimsTerminatedInc (e : Effect) : bool :=
  match e with NodeClaimsTerminatedInc _ _ _ => true | _ => false end.
Definition isTerminatingOnInterruption (e : Effect) : bool :=
  match e with Publish TerminatingOnInterruption _ _ => true | _ => false end.

(** What the remediation executor does: everything but log lines and the
    two message metrics of [handleMessage]. *)
Definition isRemediation (e : Effect) : bool :=
  match e with
  | Publish _ _ _ | MarkUnavailable _ _ _ _ | KubeCreate _ _ | KubeDelete _ _
  | ActionsPerformedInc _ | NodeClaimsTerminatedInc _ _ _ => true
  | _ => false
  end.

(** [actionForMessage] *)
Definition actionForMessage (msg : Message) : Action :=
  match msgKind msg with
  | ScheduledChangeKind | SpotInterruptionKind | StateChangeKind => CordonAndDrain
  | _ => NoAction
  end.

(** ** Collaborators

    Each interface of the controller is a record of functions on an
    abstract world. *)

(** [client.Client], restricted to the calls of this controller. *)
Record Client (World : Type) : Type := mkClient {
  ListNodeClaims : World -> result (list NodeClaim) * World;
  ListNodes : World -> result (list Node) * World;
  Create : NodeClaim -> World -> option error * World;
  Delete : NodeClaim -> World -> option error * World
}.
Arguments mkClient {World}.
Arguments ListNodeClaims {World}.
Arguments ListNodes {World}.
Arguments Create {World}.
Arguments Delete {World}.

(** [sqs.Provider] *)
Record Provider (World : Type) : Type := mkProvider {
  Name : string;
  GetSQSMessages : World -> result (list (option SQSMessage)) * World;
  DeleteSQSMessage : option SQSMessage -> World -> option error * World
}.
Arguments mkProvider {World}.
Arguments Name {World}.
Arguments GetSQSMessages {World}.
Arguments DeleteSQSMessage {World}.

(** [EventParser] *)
Record EventParser : Type := mkEventParser {
  Parse : string -> result Message
}.

(** [pretty.ChangeMonitor] *)
Record ChangeMonitor (World : Type) : Type := mkChangeMonitor {
  HasChanged : string -> World -> bool * World
}.
Arguments mkChangeMonitor {World}.
Arguments HasChanged {World}.

Record Controller (World : Type) : Type := mkController {
  kubeClient : Client World;
  sqsProvider : Provider World;
  parser : EventParser;
  cm : ChangeMonitor World
}.
Arguments mkController {World}.
Arguments kubeClient {World}.
Arguments sqsProvider {World}.
Arguments parser {World}.
Arguments cm {World}.

(** ** A concrete controller

    A world that counts the calls made to the collaborators, and
    collaborators that give fixed answers; used to run the controller on
    concrete inputs. *)

Definition demoClient (claims : result (list NodeClaim)) (nodes : result (list Node))
    (created deleted : option error) : Client nat :=
  mkClient (fun w => (claims, S w)) (fun w => (nodes, S w))
           (fun _ w => (created, S w)) (fun _ w => (deleted, S w)).

Definition demoProvider (batch : result (list (option SQSMessage))) (acked : option error)
  : Provider nat :=
  mkProvider "interruption-queue" (fun w => (batch, S w)) (fun _ w => (acked, S w)).

Definition spotMessage : Message := mkMessage SpotInterruptionKind ["i-123"] 1000%Z "".
Definition noOpMessage : Message := mkMessage NoOpKind [] 1000%Z "".

Definition demoParser : EventParser :=
  mkEventParser (fun body =>
    if String.eqb body "spot" then Ok spotMessage
    else if String.eqb body "noop" then Ok noOpMessage
    else Err (ErrLeaf None "unmarshalling the message")).

Definition demoMonitor : ChangeMonitor nat :=
  mkChangeMonitor (fun _ w => (Nat.eqb w 0, S w)).

Definition demoController (claims : result (list NodeClaim)) (nodes : result (list Node))
    (created deleted : option error) (batch : result (list (option SQSMessage)))
    (acked : option error) : Controller nat :=
  mkController (demoClient claims nodes created deleted) (demoProvider batch acked)
               demoParser demoMonitor.

Definition demoParseInstanceID (providerID : string) : result string := Ok providerID.
Definition demoNow (w : nat) : Time := (5000 + Z.of_nat w)%Z.
Definition demoCtxDone (w : nat) : bool := false.

Definition rawOf (body : string) : option SQSMessage :=
  Some (mkSQSMessage (Some "id-1") (Some "handle-1") (Some body)).

Definition demoClaim (deletionTimestamp : option Time) : NodeClaim :=
  {| ncName := "default-abcde";
     ncGenerateName := "default-";
     ncUID := "uid-1";
     ncResourceVersion := "7";
     ncDeletionTimestamp := deletionTimestamp;
     ncFinalizers := ["karpenter.sh/termination"];
     ncAnnotations := ∅;
     ncLabels := <[LabelTopologyZone := "us-east-1a"]>
                   (<[LabelInstanceTypeStable := "m5.large"]> ∅);
     ncOwnerReferences := [];
     ncSpec := mkNodeClaimSpec "default" [] [];
     ncStatus := mkNodeClaimStatus "i-123" "ip-10-0-0-1" "ami-1" |}.

Definition internalError : error := ErrLeaf (Some "InternalError") "etcd unavailable".
Definition throttled : error := ErrLeaf None "request throttled".

Section Interruption.

Context {World : Type}.

(** ** The monad of the controller *)

Definition M (A : Type) : Type := World -> A * World * list Effect.

Definition ret {A : Type} (a : A) : M A := fun w => (a, w, []).

Definition bind {A B : Type} (m : M A) (k : A -> M B) : M B :=
  fun w =>
    match m w with
    | (a, w1, t1) =>
        match k a w1 with
        | (b, w2, t2) => (b, w2, t1 ++ t2)
        end
    end.

Definition emit (e : Effect) : M unit := fun w => (tt, w, [e]).

(** A call to a collaborator. *)
Definition call {A : Type} (f : World -> A * World) : M A :=
  fun w => match f w with (a, w') => (a, w', []) end.

Definition result_of {A : Type} (r : A * World * list Effect) : A := fst (fst r).
Definition world_of {A : Type} (r : A * World * list Effect) : World := snd (fst r).
Definition trace_of {A : Type} (r : A * World * list Effect) : list Effect := snd r.

Notation "'let*' x ':=' c 'in' k" := (bind c (fun x => k))
  (at level 10, x name, c at level 100, k at level 200).
Notation "c ';;;' k" := (bind c (fun _ => k))
  (at level 100, k at level 200, right associativity).

(** [utils.ParseInstanceID], the wall clock behind [time.Since] and the
    constant [terminationReasonLabel] are declared elsewhere. *)
Variable ParseInstanceID : string -> result string.
Variable timeNow : World -> Time.
Variable terminationReasonLabel : string.

Variable c : Controller World.

(** Whether the context of the cycle is done ([ctx.Done()] is closed). *)
Variable ctxDone : World -> bool.

(** [time.Since(t)], as a duration in nanoseconds. *)
Definition time_Since (t : Time) : M Z := fun w => ((timeNow w - t)%Z, w, []).

(** The non-blocking read of [ctx.Done()]. *)
Definition ctx_Done : M bool := fun w => (ctxDone w, w, []).

(** ** The controller *)

(** [Controller.parseMessage] *)
Definition parseMessage (raw : option SQSMessage) : result Message :=
  match raw with
  | None => Err (ErrLeaf None "message or message body is nil")
  | Some r =>
      match sqsBody r with
      | None => Err (ErrLeaf None "message or message body is nil")
      | Some body =>
          match Parse (parser c) body with
          | Err err => Err (ErrWrap "parsing sqs message, " err)
          | Ok msg => Ok msg
          end
      end
  end.

(** [Controller.deleteMessage] *)
Definition deleteMessage (msg : option SQSMessage) : M (option error) :=
  let* r := call (DeleteSQSMessage (sqsProvider c) msg) in
  emit (QueueDelete msg r) ;;;
  match r with
  | Some err => ret (Some (ErrWrap "deleting sqs message, " err))
  | None => emit DeletedMessagesInc ;;; ret None
  end.

(** [Controller.notifyForMessage]. The type assertion to
    [statechange.Message] cannot fail here: every [Message] of the model
    carries a detail state, read only for [StateChangeKind]. *)
Definition notifyForMessage (msg : Message) (nodeClaim : NodeClaim) (n : option Node) : M unit :=
  match msgKind msg with
  | RebalanceRecommendationKind => emit (Publish RebalanceRecommendation n nodeClaim)
  | ScheduledChangeKind => emit (Publish Unhealthy n nodeClaim)
  | SpotInterruptionKind => emit (Publish SpotInterrupted n nodeClaim)
  | StateChangeKind =>
      if existsb (String.eqb (msgDetailState msg)) ["stopping"; "stopped"]
      then emit (Publish Stopping n nodeClaim)
      else emit (Publish Terminating n nodeClaim)
  | _ => ret tt
  end.

(** The object built by [Controller.createNodeClaim]: every field that the
    composite literal does not set has its zero value. *)
Definition newNodeClaim (oldNodeClaim : NodeClaim) : NodeClaim :=
  {| ncName := "";
     ncGenerateName := ncGenerateName oldNodeClaim;
     ncUID := "";
     ncResourceVersion := "";
     ncDeletionTimestamp := None;
     ncFinalizers := [];
     ncAnnotations := ncAnnotations oldNodeClaim;
     ncLabels := ncLabels oldNodeClaim;
     ncOwnerReferences := ncOwnerReferences oldNodeClaim;
     ncSpec := ncSpec oldNodeClaim;
     ncStatus := zeroStatus |}.

(** [Controller.createNodeClaim] *)
Definition createNodeClaim (oldNodeClaim : NodeClaim) : M (option error) :=
  let* r := call (Create (kubeClient c) (newNodeClaim oldNodeClaim)) in
  emit (KubeCreate (newNodeClaim oldNodeClaim) r) ;;;
  ret r.

(** [Controller.deleteNodeClaim] *)
Definition deleteNodeClaim (nodeClaim : NodeClaim) (node : option Node) : M (option error) :=
  if negb (Time_IsZero (ncDeletionTimestamp nodeClaim)) then ret None
  else
    let* r := call (Delete (kubeClient c) nodeClaim) in
    emit (KubeDelete nodeClaim r) ;;;
    match r with
    | Some err =>
        ret (IgnoreNotFound (ErrWrap "deleting the node on interruption message, " err))
    | None =>
        emit (LogInfo "initiating delete from interruption message") ;;;
        emit (Publish TerminatingOnInterruption node nodeClaim) ;;;
        emit (NodeClaimsTerminatedInc terminationReasonLabel
                (label (ncLabels nodeClaim) NodePoolLabelKey)
                (label (ncLabels nodeClaim) CapacityTypeLabelKey)) ;;;
        ret None
    end.

(** [Controller.handleNodeClaim] *)
Definition handleNodeClaim (msg : Message) (nodeClaim : NodeClaim) (node : option Node)
  : M (option error) :=
  let action := actionForMessage msg in
  notifyForMessage msg nodeClaim node ;;;
  emit (ActionsPerformedInc action) ;;;
  (if Kind_eqb (msgKind msg) SpotInterruptionKind then
     let zone := label (ncLabels nodeClaim) LabelTopologyZone in
     let instanceType := label (ncLabels nodeClaim) LabelInstanceTypeStable in
     (if negb (String.eqb zone "") && negb (String.eqb instanceType "")
      then emit (MarkUnavailable (msgKind msg) instanceType zone CapacityTypeSpot)
      else ret tt) ;;;
     let* err := createNodeClaim nodeClaim in
     match err with
     | Some e => emit (LogError "[interruption handling]failed to create a new nodeclaim, " e)
     | None => ret tt
     end
   else ret tt) ;;;
  match action with
  | NoAction => ret None
  | _ => deleteNodeClaim nodeClaim node
  end.

(** The loop of [Controller.handleMessage] over the instance ids. *)
Fixpoint handleInstanceIDs (nodeClaimInstanceIDMap : gmap string NodeClaim)
    (nodeInstanceIDMap : gmap string Node) (msg : Message)
    (ids : list string) (err : option error) : M (option error) :=
  match ids with
  | [] => ret err
  | instanceID :: rest =>
      match nodeClaimInstanceIDMap !! instanceID with
      | None => handleInstanceIDs nodeClaimInstanceIDMap nodeInstanceIDMap msg rest err
      | Some nodeClaim =>
          let node := nodeInstanceIDMap !! instanceID in
          let* e := handleNodeClaim msg nodeClaim node in
          match e with
          | Some _ =>
              handleInstanceIDs nodeClaimInstanceIDMap nodeInstanceIDMap msg rest
                (multierr_Append err e)
          | None =>
              handleInstanceIDs nodeClaimInstanceIDMap nodeInstanceIDMap msg rest err
          end
      end
  end.

(** [Controller.handleMessage] *)
Definition handleMessage (nodeClaimInstanceIDMap : gmap string NodeClaim)
    (nodeInstanceIDMap : gmap string Node) (msg : Message) : M (option error) :=
  emit (ReceivedMessagesInc (msgKind msg)) ;;;
  if Kind_eqb (msgKind msg) NoOpKind then ret None
  else
    let* err := handleInstanceIDs nodeClaimInstanceIDMap nodeInstanceIDMap msg
                  (msgEC2InstanceIDs msg) None in
    let* d := time_Since (msgStartTime msg) in
    emit (MessageLatencyObserve d) ;;;
    match err with
    | Some e => ret (Some (ErrWrap "acting on NodeClaims, " e))
    | None => ret None
    end.

(** The loop of [makeNodeClaimInstanceIDMap] over the listed items. *)
Fixpoint indexNodeClaims (items : list NodeClaim) (m : gmap string NodeClaim)
  : gmap string NodeClaim :=
  match items with
  | [] => m
  | item :: rest =>
      if String.eqb (statusProviderID (ncStatus item)) "" then indexNodeClaims rest m
      else
        match ParseInstanceID (statusProviderID (ncStatus item)) with
        | Err _ => indexNodeClaims rest m
        | Ok id =>
            if String.eqb id "" then indexNodeClaims rest m
            else indexNodeClaims rest (<[id := item]> m)
        end
  end.

(** [Controller.makeNodeClaimInstanceIDMap] *)
Definition makeNodeClaimInstanceIDMap : M (result (gmap string NodeClaim)) :=
  let* r := call (ListNodeClaims (kubeClient c)) in
  match r with
  | Err err => ret (Err err)
  | Ok items => ret (Ok (indexNodeClaims items ∅))
  end.

(** The loop of [makeNodeInstanceIDMap] over the listed items. *)
Fixpoint indexNodes (items : list Node) (m : gmap string Node) : gmap string Node :=
  match items with
  | [] => m
  | item :: rest =>
      if String.eqb (nodeProviderID item) "" then indexNodes rest m
      else
        match ParseInstanceID (nodeProviderID item) with
        | Err _ => indexNodes rest m
        | Ok id =>
            if String.eqb id "" then indexNodes rest m
            else indexNodes rest (<[id := item]> m)
        end
  end.

(** [Controller.makeNodeInstanceIDMap] *)
Definition makeNodeInstanceIDMap : M (result (gmap string Node)) :=
  let* r := call (ListNodes (kubeClient c)) in
  match r with
  | Err err => ret (Err (ErrWrap "listing nodes, " err))
  | Ok items => ret (Ok (indexNodes items ∅))
  end.

(** The piece that [Reconcile] hands to [workqueue.ParallelizeUntil]; its
    result is the value stored in [errs[i]]. *)
Definition processMessage (nodeClaimInstanceIDMap : gmap string NodeClaim)
    (nodeInstanceIDMap : gmap string Node) (raw : option SQSMessage) : M (option error) :=
  match parseMessage raw with
  | Err e =>
      emit (LogError "parsing message, " e) ;;;
      deleteMessage raw
  | Ok msg =>
      let* e := handleMessage nodeClaimInstanceIDMap nodeInstanceIDMap msg in
      match e with
      | Some e' => ret (Some (ErrWrap "handling message, " e'))
      | None => deleteMessage raw
      end
  end.

(** [workqueue.ParallelizeUntil] over the batch, in index order: before
    every piece the worker selects on [ctx.Done()] and returns when the
    context is done, so that the pieces not yet started never run and their
    entries of [errs] keep the nil they were made with. The result is the
    slice [errs]. *)
Fixpoint ParallelizeUntil (nodeClaimInstanceIDMap : gmap string NodeClaim)
    (nodeInstanceIDMap : gmap string Node) (sqsMessages : list (option SQSMessage))
  : M (list (option error)) :=
  match sqsMessages with
  | [] => ret []
  | raw :: rest =>
      let* stop := ctx_Done in
      if stop then ret (repeat None (length sqsMessages))
      else
        let* e := processMessage nodeClaimInstanceIDMap nodeInstanceIDMap raw in
        let* es := ParallelizeUntil nodeClaimInstanceIDMap nodeInstanceIDMap rest in
        ret (e :: es)
  end.

(** [Controller.Reconcile]; the [reconcile.Result] it returns is always
    the zero value and is left out. *)
Definition Reconcile : M (option error) :=
  let* changed := call (HasChanged (cm c) (Name (sqsProvider c))) in
  (if changed then emit (LogDebug "watching interruption queue") else ret tt) ;;;
  let* got := call (GetSQSMessages (sqsProvider c)) in
  match got with
  | Err err => ret (Some (ErrWrap "getting messages from queue, " err))
  | Ok sqsMessages =>
      if Nat.eqb (length sqsMessages) 0 then ret None
      else
        let* r1 := makeNodeClaimInstanceIDMap in
        match r1 with
        | Err err => ret (Some (ErrWrap "making nodeclaim instance id map, " err))
        | Ok nodeClaimInstanceIDMap =>
            let* r2 := makeNodeInstanceIDMap in
            match r2 with
            | Err err => ret (Some (ErrWrap "making node instance id map, " err))
            | Ok nodeInstanceIDMap =>
                let* errs := ParallelizeUntil nodeClaimInstanceIDMap nodeInstanceIDMap
                               sqsMessages in
                ret (multierr_Combine errs)
            end
        end
  end.

(** Every effect of the executor is a remediation effect or a log line. *)
Definition isLog (e : Effect) : bool :=
  match e with
  | LogDebug _ | LogInfo _ | LogError _ _ => true
  | _ => false
  end.

Definition fromExecutor (e : Effect) : bool := isRemediation e || isLog e.

(** Every piece of [pieces] is started when the fan-out begins in [w]: the
    context is not done when the worker comes to it. *)
Fixpoint piecesRun (ncm : gmap string NodeClaim) (nm : gmap string Node)
    (pieces : list (option SQSMessage)) (w : World) : bool :=
  match pieces with
  | [] => true
  | raw :: rest =>
      negb (ctxDone w) && piecesRun ncm nm rest (world_of (processMessage ncm nm raw w))
  end.

(** [Reconcile], started in [w0], receives the batch [pre ++ raw :: post],
    lists the cluster into the indexes [ncm] and [nm], runs the pieces of
    [pre] and then starts the piece of [raw] in the world [w]: the context
    is not done when the worker comes to any of these pieces. *)
Definition startsPiece (w0 : World) (pre : list (option SQSMessage))
    (raw : option SQSMessage) (post : list (option SQSMessage))
    (ncm : gmap string NodeClaim) (nm : gmap string Node) (w : World) : Prop :=
  exists changed w1 w2 claims w3 nodes w4,
    HasChanged (cm c) (Name (sqsProvider c)) w0 = (changed, w1) /\
    GetSQSMessages (sqsProvider c) w1 = (Ok (pre ++ raw :: post), w2) /\
    ListNodeClaims (kubeClient c) w2 = (Ok claims, w3) /\
    ListNodes (kubeClient c) w3 = (Ok nodes, w4) /\
    ncm = indexNodeClaims claims ∅ /\
    nm = indexNodes nodes ∅ /\
    piecesRun ncm nm (pre ++ [raw]) w4 = true /\
    w = world_of (ParallelizeUntil ncm nm pre w4).

Definition isActionsPerformedInc (e : Effect) : bool :=
  match e with ActionsPerformedInc _ => true | _ => false end.


(** The key under which the two index loops store a record with the given
    provider id: none when the provider id is empty, does not parse, or
    parses to the empty instance id. *)
Definition instanceIDOf (providerID : string) : option string :=
  if String.eqb providerID "" then None
  else
    match ParseInstanceID providerID with
    | Err _ => None
    | Ok id => if String.eqb id "" then None else Some id
    end.

(** Whether an instance id is a key of the NodeClaim index. *)
Definition matched (ncm : gmap string NodeClaim) (instanceID : string) : bool :=
  match ncm !! instanceID with
  | Some _ => true
  | None => false
  end.

(** [Reconcile], started in [w0], receives the non-empty [batch], lists
    [claims] and [nodes] and begins the fan-out over the batch in the world
    [w]. *)
Definition startsBatch (w0 : World) (batch : list (option SQSMessage))
    (claims : list NodeClaim) (nodes : list Node) (w : World) : Prop :=
  exists changed w1 w2 w3,
    HasChanged (cm c) (Name (sqsProvider c)) w0 = (changed, w1) /\
    GetSQSMessages (sqsProvider c) w1 = (Ok batch, w2) /\
    batch <> [] /\
    ListNodeClaims (kubeClient c) w2 = (Ok claims, w3) /\
    ListNodes (kubeClient c) w3 = (Ok nodes, w).


(** ** Running computations *)

Lemma bind_run {A B : Type} (m : M A) (k : A -> M B) (w : World) :
  bind m k w =
  (result_of (k (result_of (m w)) (world_of (m w))),
   world_of (k (result_of (m w)) (world_of (m w))),
   trace_of (m w) ++ trace_of (k (result_of (m w)) (world_of (m w)))).
Proof.
  unfold bind, result_of, world_of, trace_of.
  destruct (m w) as [[a w1] t1]; simpl.
  destruct (k a w1) as [[b w2] t2]; reflexivity.
Qed.

Lemma call_run {A : Type} (f : World -> A * World) (w : World) :
  call f w = (fst (f w), snd (f w), []).
Proof. unfold call. destruct (f w); reflexivity. Qed.

Lemma run_eta {A : Type} (r : A * World * list Effect) :
  r = (result_of r, world_of r, trace_of r).
Proof. destruct r as [[a w] t]; reflexivity. Qed.

Ltac run :=
  repeat (rewrite ?bind_run, ?call_run;
          cbn [result_of world_of trace_of fst snd ret emit ctx_Done app]).

(** ** The action policy *)

(** C7: [actionForMessage] returns [CordonAndDrain] exactly for the kinds
    ScheduledChange, SpotInterruption and StateChange, and [NoAction] for
    every other kind, the unknown ones included. It is a total function of
    the message alone: it has no effect and no error case. *)
Theorem actionForMessage_exhaustive (msg : Message) :
  (actionForMessage msg = CordonAndDrain <->
     msgKind msg = ScheduledChangeKind \/ msgKind msg = SpotInterruptionKind \/
     msgKind msg = StateChangeKind) /\
  (actionForMessage msg = NoAction <->
     msgKind msg = RebalanceRecommendationKind \/ msgKind msg = NoOpKind \/
     exists name, msgKind msg = UnknownKind name).
Proof.
  unfold actionForMessage.
  destruct (msgKind msg) eqn:K; split; split; intros H;
    try reflexivity; try discriminate; eauto;
    repeat match goal with
           | H : _ \/ _ |- _ => destruct H
           | H : exists _, _ |- _ => destruct H
           end; discriminate.
Qed.

(** ** The remediation executor *)

Lemma IsNotFound_wrap (prefix : string) (e : error) :
  IsNotFound (ErrWrap prefix e) = IsNotFound e.
Proof. reflexivity. Qed.

Lemma deleteNodeClaim_marked (nodeClaim : NodeClaim) (node : option Node) (w : World) :
  Time_IsZero (ncDeletionTimestamp nodeClaim) = false ->
  deleteNodeClaim nodeClaim node w = (None, w, []).
Proof. intros Hz. unfold deleteNodeClaim. rewrite Hz. reflexivity. Qed.

Lemma deleteNodeClaim_unmarked (nodeClaim : NodeClaim) (node : option Node) (w : World) :
  Time_IsZero (ncDeletionTimestamp nodeClaim) = true ->
  deleteNodeClaim nodeClaim node w =
  match Delete (kubeClient c) nodeClaim w with
  | (Some err, w') =>
      (IgnoreNotFound (ErrWrap "deleting the node on interruption message, " err), w',
       [KubeDelete nodeClaim (Some err)])
  | (None, w') =>
      (None, w',
       [KubeDelete nodeClaim None;
        LogInfo "initiating delete from interruption message";
        Publish TerminatingOnInterruption node nodeClaim;
        NodeClaimsTerminatedInc terminationReasonLabel
          (label (ncLabels nodeClaim) NodePoolLabelKey)
          (label (ncLabels nodeClaim) CapacityTypeLabelKey)])
  end.
Proof.
  intros Hz. unfold deleteNodeClaim. rewrite Hz. cbn [negb]. run.
  destruct (Delete (kubeClient c) nodeClaim w) as [[err|] w']; run; reflexivity.
Qed.

(** C3: the delete-on-interruption path. On a claim whose deletion marker
    is set it returns success and does nothing at all. Otherwise it issues
    exactly one delete; a NotFound answer is a success, any other error is
    returned (wrapped); the terminating-on-interruption event and the
    termination counter are emitted once when the delete call succeeds and
    not at all when it fails. Hence a second run, on the claim with its
    marker set, returns success and the two runs together increment the
    counter at most once. *)
Theorem deleteNodeClaim_idempotent (nodeClaim : NodeClaim) (node : option Node) (w : World) :
  (Time_IsZero (ncDeletionTimestamp nodeClaim) = false ->
     deleteNodeClaim nodeClaim node w = (None, w, [])) /\
  (Time_IsZero (ncDeletionTimestamp nodeClaim) = true ->
     let answer := fst (Delete (kubeClient c) nodeClaim w) in
     let run := deleteNodeClaim nodeClaim node w in
     world_of run = snd (Delete (kubeClient c) nodeClaim w) /\
     List.filter isKubeDelete (trace_of run) = [KubeDelete nodeClaim answer] /\
     (answer = None ->
        result_of run = None /\
        List.filter isTerminatingOnInterruption (trace_of run) =
          [Publish TerminatingOnInterruption node nodeClaim] /\
        List.filter isNodeClaimsTerminatedInc (trace_of run) =
          [NodeClaimsTerminatedInc terminationReasonLabel
             (label (ncLabels nodeClaim) NodePoolLabelKey)
             (label (ncLabels nodeClaim) CapacityTypeLabelKey)]) /\
     (forall err, answer = Some err ->
        result_of run =
          (if IsNotFound err then None
           else Some (ErrWrap "deleting the node on interruption message, " err)) /\
        List.filter isTerminatingOnInterruption (trace_of run) = [] /\
        List.filter isNodeClaimsTerminatedInc (trace_of run) = [])) /\
  (forall (marked : NodeClaim) (node' : option Node),
     Time_IsZero (ncDeletionTimestamp marked) = false ->
     let first := deleteNodeClaim nodeClaim node w in
     let second := deleteNodeClaim marked node' (world_of first) in
     result_of second = None /\
     trace_of second = [] /\
     length (List.filter isNodeClaimsTerminatedInc (trace_of first ++ trace_of second)) <= 1).
Proof.
  split; [apply deleteNodeClaim_marked|]. split.
  - intros Hz. cbn zeta. rewrite (deleteNodeClaim_unmarked _ _ _ Hz).
    destruct (Delete (kubeClient c) nodeClaim w) as [[err|] w']; cbn.
    + split; [reflexivity|]. split; [reflexivity|]. split; [discriminate|].
      intros e [= <-]. unfold IgnoreNotFound. rewrite IsNotFound_wrap.
      repeat split.
    + split; [reflexivity|]. split; [reflexivity|]. split; [|discriminate].
      intros _. repeat split.
  - intros marked node' Hm. cbn zeta.
    rewrite (deleteNodeClaim_marked marked node' _ Hm). cbn.
    split; [reflexivity|]. split; [reflexivity|].
    rewrite app_nil_r.
    destruct (Time_IsZero (ncDeletionTimestamp nodeClaim)) eqn:Hz.
    + rewrite (deleteNodeClaim_unmarked _ _ _ Hz).
      destruct (Delete (kubeClient c) nodeClaim w) as [[err|] w']; cbn; lia.
    + rewrite (deleteNodeClaim_marked _ _ _ Hz). cbn. lia.
Qed.

Lemma handleNodeClaim_spot (msg : Message) (nodeClaim : NodeClaim) (node : option Node)
    (w : World) :
  msgKind msg = SpotInterruptionKind ->
  let zone := label (ncLabels nodeClaim) LabelTopologyZone in
  let instanceType := label (ncLabels nodeClaim) LabelInstanceTypeStable in
  let created := Create (kubeClient c) (newNodeClaim nodeClaim) w in
  let deleted := deleteNodeClaim nodeClaim node (snd created) in
  handleNodeClaim msg nodeClaim node w =
  (result_of deleted, world_of deleted,
   [Publish SpotInterrupted node nodeClaim; ActionsPerformedInc CordonAndDrain] ++
   (if negb (String.eqb zone "") && negb (String.eqb instanceType "")
    then [MarkUnavailable SpotInterruptionKind instanceType zone CapacityTypeSpot]
    else []) ++
   KubeCreate (newNodeClaim nodeClaim) (fst created) ::
   match fst created with
   | Some e => [LogError "[interruption handling]failed to create a new nodeclaim, " e]
   | None => []
   end ++ trace_of deleted).
Proof.
  intros K. cbn zeta.
  unfold handleNodeClaim, notifyForMessage, actionForMessage, createNodeClaim.
  rewrite K. cbn [Kind_eqb]. run.
  destruct (negb (label (ncLabels nodeClaim) LabelTopologyZone =? "") &&
            negb (label (ncLabels nodeClaim) LabelInstanceTypeStable =? ""))%string;
    run;
    destruct (Create (kubeClient c) (newNodeClaim nodeClaim) w) as [[e|] w1];
    run; rewrite ?app_nil_r; reflexivity.
Qed.

Lemma filter_deleteNodeClaim (p : Effect -> bool) (nodeClaim : NodeClaim)
    (node : option Node) (w : World) :
  (forall nc r, p (KubeDelete nc r) = false) ->
  (forall s, p (LogInfo s) = false) ->
  (forall n nc, p (Publish TerminatingOnInterruption n nc) = false) ->
  (forall a b d, p (NodeClaimsTerminatedInc a b d) = false) ->
  List.filter p (trace_of (deleteNodeClaim nodeClaim node w)) = [].
Proof.
  intros H1 H2 H3 H4.
  destruct (Time_IsZero (ncDeletionTimestamp nodeClaim)) eqn:Hz.
  - rewrite (deleteNodeClaim_unmarked _ _ _ Hz).
    destruct (Delete (kubeClient c) nodeClaim w) as [[err|] w']; cbn;
      rewrite ?H1, ?H2, ?H3, ?H4; reflexivity.
  - rewrite (deleteNodeClaim_marked _ _ _ Hz). reflexivity.
Qed.

Lemma deleteNodeClaim_error (nodeClaim : NodeClaim) (node : option Node) (w : World)
    (e : error) :
  result_of (deleteNodeClaim nodeClaim node w) = Some e ->
  exists cause,
    In (KubeDelete nodeClaim (Some cause)) (trace_of (deleteNodeClaim nodeClaim node w)) /\
    IsNotFound cause = false /\
    e = ErrWrap "deleting the node on interruption message, " cause.
Proof.
  destruct (Time_IsZero (ncDeletionTimestamp nodeClaim)) eqn:Hz.
  - rewrite (deleteNodeClaim_unmarked _ _ _ Hz).
    destruct (Delete (kubeClient c) nodeClaim w) as [[err|] w']; cbn; [|discriminate].
    unfold IgnoreNotFound. rewrite IsNotFound_wrap.
    destruct (IsNotFound err) eqn:Hn; [discriminate|].
    intros [= <-]. exists err. auto.
  - rewrite (deleteNodeClaim_marked _ _ _ Hz). discriminate.
Qed.

(** C2: for a SpotInterruption message and a matched NodeClaim, the handler
    marks the offering unavailable exactly once, with the instance type and
    the zone of the claim, capacity type spot and the kind of the message
    as reason, when both labels are non-empty, and not at all when one of
    them is empty; it attempts exactly one creation, of an object that
    takes the generate-name, annotations, labels, owner references and spec
    of the original and leaves the name, the status, the deletion marker
    and every other field at its zero value; and whatever the creation
    answers, an error of the handler is the wrapped error of the delete
    call, never that of the creation. *)
Theorem handleNodeClaim_spot_interruption (msg : Message) (nodeClaim : NodeClaim)
    (node : option Node) (w : World) :
  msgKind msg = SpotInterruptionKind ->
  let zone := label (ncLabels nodeClaim) LabelTopologyZone in
  let instanceType := label (ncLabels nodeClaim) LabelInstanceTypeStable in
  let run := handleNodeClaim msg nodeClaim node w in
  (zone <> "" /\ instanceType <> "" ->
     List.filter isMarkUnavailable (trace_of run) =
       [MarkUnavailable (msgKind msg) instanceType zone "spot"]) /\
  (zone = "" \/ instanceType = "" ->
     List.filter isMarkUnavailable (trace_of run) = []) /\
  (exists created,
     List.filter isKubeCreate (trace_of run) =
       [KubeCreate created (fst (Create (kubeClient c) created w))] /\
     ncGenerateName created = ncGenerateName nodeClaim /\
     ncAnnotations created = ncAnnotations nodeClaim /\
     ncLabels created = ncLabels nodeClaim /\
     ncOwnerReferences created = ncOwnerReferences nodeClaim /\
     ncSpec created = ncSpec nodeClaim /\
     ncName created = "" /\
     ncStatus created = zeroStatus /\
     ncDeletionTimestamp created = None /\
     ncUID created = "" /\ ncResourceVersion created = "" /\ ncFinalizers created = []) /\
  (forall e, result_of run = Some e ->
     exists cause,
       In (KubeDelete nodeClaim (Some cause)) (trace_of run) /\
       IsNotFound cause = false /\
       e = ErrWrap "deleting the node on interruption message, " cause).
Proof.
  intros K. cbn zeta. rewrite (handleNodeClaim_spot msg nodeClaim node w K).
  cbn zeta. rewrite K.
  set (created := Create (kubeClient c) (newNodeClaim nodeClaim) w).
  set (deleted := deleteNodeClaim nodeClaim node (snd created)).
  assert (Hd1 : List.filter isMarkUnavailable (trace_of deleted) = [])
    by (apply filter_deleteNodeClaim; reflexivity).
  assert (Hd2 : List.filter isKubeCreate (trace_of deleted) = [])
    by (apply filter_deleteNodeClaim; reflexivity).
  cbn [trace_of result_of snd fst].
  repeat split.
  - intros [Hz Hi].
    apply String.eqb_neq in Hz, Hi. rewrite Hz, Hi. cbn.
    destruct (fst created); cbn; rewrite Hd1; reflexivity.
  - intros [Hz | Hi].
    + rewrite Hz. cbn. destruct (fst created); cbn; rewrite Hd1; reflexivity.
    + rewrite Hi. rewrite andb_comm. cbn. destruct (fst created); cbn; rewrite Hd1; reflexivity.
  - exists (newNodeClaim nodeClaim). fold created.
    split; [|repeat split].
    destruct (negb _ && negb _); destruct (fst created); cbn; rewrite Hd2; reflexivity.
  - intros e He. destruct (deleteNodeClaim_error _ _ _ _ He) as (cause & Hin & Hn & ->).
    exists cause. repeat split; auto.
    apply in_or_app. right. apply in_or_app. right. right.
    apply in_or_app. right. exact Hin.
Qed.

(** C10: for a SpotInterruption message matched to a NodeClaim whose
    deletion marker is already set, the handler publishes the
    spot-interrupted event, increments the actions-performed counter, marks
    the offering unavailable when both labels are non-empty and attempts
    the creation of the replacement; only then does the delete step return,
    without a delete call, and the handler succeeds. *)
Theorem handleNodeClaim_spot_already_deleting (msg : Message) (nodeClaim : NodeClaim)
    (node : option Node) (w : World) :
  msgKind msg = SpotInterruptionKind ->
  Time_IsZero (ncDeletionTimestamp nodeClaim) = false ->
  let zone := label (ncLabels nodeClaim) LabelTopologyZone in
  let instanceType := label (ncLabels nodeClaim) LabelInstanceTypeStable in
  let answer := fst (Create (kubeClient c) (newNodeClaim nodeClaim) w) in
  let run := handleNodeClaim msg nodeClaim node w in
  result_of run = None /\
  world_of run = snd (Create (kubeClient c) (newNodeClaim nodeClaim) w) /\
  trace_of run =
    [Publish SpotInterrupted node nodeClaim; ActionsPerformedInc CordonAndDrain] ++
    (if negb (String.eqb zone "") && negb (String.eqb instanceType "")
     then [MarkUnavailable SpotInterruptionKind instanceType zone "spot"] else []) ++
    [KubeCreate (newNodeClaim nodeClaim) answer] ++
    match answer with
    | Some e => [LogError "[interruption handling]failed to create a new nodeclaim, " e]
    | None => []
    end /\
  List.filter isKubeDelete (trace_of run) = [] /\
  List.filter isNodeClaimsTerminatedInc (trace_of run) = [].
Proof.
  intros K Hz. cbn zeta. rewrite (handleNodeClaim_spot msg nodeClaim node w K).
  cbn zeta. rewrite (deleteNodeClaim_marked _ _ _ Hz).
  cbn [result_of world_of trace_of fst snd]. rewrite app_nil_r.
  repeat split.
  - destruct (negb _ && negb _); destruct (fst (Create _ _ _)); reflexivity.
  - destruct (negb _ && negb _); destruct (fst (Create _ _ _)); reflexivity.
Qed.

Lemma deleteNodeClaim_fromExecutor (nodeClaim : NodeClaim) (node : option Node) (w : World) :
  forallb fromExecutor (trace_of (deleteNodeClaim nodeClaim node w)) = true.
Proof.
  destruct (Time_IsZero (ncDeletionTimestamp nodeClaim)) eqn:Hz.
  - rewrite (deleteNodeClaim_unmarked _ _ _ Hz).
    destruct (Delete (kubeClient c) nodeClaim w) as [[err|] w']; reflexivity.
  - rewrite (deleteNodeClaim_marked _ _ _ Hz). reflexivity.
Qed.

Lemma deleteNodeClaim_delete_failed (nodeClaim : NodeClaim) (node : option Node) (w : World)
    (nc : NodeClaim) (cause : error) :
  In (KubeDelete nc (Some cause)) (trace_of (deleteNodeClaim nodeClaim node w)) ->
  IsNotFound cause = false ->
  result_of (deleteNodeClaim nodeClaim node w) =
    Some (ErrWrap "deleting the node on interruption message, " cause).
Proof.
  destruct (Time_IsZero (ncDeletionTimestamp nodeClaim)) eqn:Hz.
  - rewrite (deleteNodeClaim_unmarked _ _ _ Hz).
    destruct (Delete (kubeClient c) nodeClaim w) as [[err|] w']; cbn.
    + intros [[= _ <-] | []] Hn. unfold IgnoreNotFound.
      rewrite IsNotFound_wrap, Hn. reflexivity.
    + intros [H | [H | [H | [H | []]]]]; discriminate.
  - rewrite (deleteNodeClaim_marked _ _ _ Hz). intros [].
Qed.

(** [handleNodeClaim] is a prefix without delete call, followed by the
    delete step when the action asks for it. *)
Lemma handleNodeClaim_shape (msg : Message) (nodeClaim : NodeClaim) (node : option Node)
    (w : World) :
  exists (pre : list Effect) (w1 : World),
    List.filter isKubeDelete pre = [] /\
    forallb fromExecutor pre = true /\
    handleNodeClaim msg nodeClaim node w =
      match actionForMessage msg with
      | NoAction => (None, w1, pre)
      | CordonAndDrain =>
          (result_of (deleteNodeClaim nodeClaim node w1),
           world_of (deleteNodeClaim nodeClaim node w1),
           pre ++ trace_of (deleteNodeClaim nodeClaim node w1))
      end.
Proof.
  destruct (msgKind msg) eqn:K.
  - exists [Publish Unhealthy node nodeClaim; ActionsPerformedInc CordonAndDrain], w.
    repeat split.
    unfold handleNodeClaim, notifyForMessage, actionForMessage. rewrite K.
    cbn [Kind_eqb]. run. reflexivity.
  - pose proof (handleNodeClaim_spot msg nodeClaim node w K) as H. cbn zeta in H.
    set (created := Create (kubeClient c) (newNodeClaim nodeClaim) w) in *.
    exists ([Publish SpotInterrupted node nodeClaim; ActionsPerformedInc CordonAndDrain] ++
            (if negb (String.eqb (label (ncLabels nodeClaim) LabelTopologyZone) "") &&
                negb (String.eqb (label (ncLabels nodeClaim) LabelInstanceTypeStable) "")
             then [MarkUnavailable SpotInterruptionKind
                     (label (ncLabels nodeClaim) LabelInstanceTypeStable)
                     (label (ncLabels nodeClaim) LabelTopologyZone) CapacityTypeSpot]
             else []) ++
            KubeCreate (newNodeClaim nodeClaim) (fst created) ::
            match fst created with
            | Some e =>
                [LogError "[interruption handling]failed to create a new nodeclaim, " e]
            | None => []
            end), (snd created).
    split; [|split].
    + destruct (negb _ && negb _); destruct (fst created); reflexivity.
    + destruct (negb _ && negb _); destruct (fst created); reflexivity.
    + unfold actionForMessage. rewrite K, H. f_equal.
      destruct (negb _ && negb _); destruct (fst created); reflexivity.
  - exists [Publish RebalanceRecommendation node nodeClaim; ActionsPerformedInc NoAction], w.
    repeat split.
    unfold handleNodeClaim, notifyForMessage, actionForMessage. rewrite K.
    cbn [Kind_eqb]. run. reflexivity.
  - exists [Publish (if existsb (String.eqb (msgDetailState msg)) ["stopping"; "stopped"]
                     then Stopping else Terminating) node nodeClaim;
            ActionsPerformedInc CordonAndDrain], w.
    repeat split.
    unfold handleNodeClaim, notifyForMessage, actionForMessage. rewrite K.
    cbn [Kind_eqb]. run.
    destruct (existsb _ _); run; reflexivity.
  - exists [ActionsPerformedInc NoAction], w.
    repeat split.
    unfold handleNodeClaim, notifyForMessage, actionForMessage. rewrite K.
    cbn [Kind_eqb]. run. reflexivity.
  - exists [ActionsPerformedInc NoAction], w.
    repeat split.
    unfold handleNodeClaim, notifyForMessage, actionForMessage. rewrite K.
    cbn [Kind_eqb]. run. reflexivity.
Qed.

Lemma handleNodeClaim_fromExecutor (msg : Message) (nodeClaim : NodeClaim)
    (node : option Node) (w : World) :
  forallb fromExecutor (trace_of (handleNodeClaim msg nodeClaim node w)) = true.
Proof.
  destruct (handleNodeClaim_shape msg nodeClaim node w) as (pre & w1 & _ & Hp & ->).
  destruct (actionForMessage msg); cbn [trace_of snd]; [|exact Hp].
  rewrite forallb_app, Hp. apply deleteNodeClaim_fromExecutor.
Qed.

Lemma handleNodeClaim_delete_failed (msg : Message) (nodeClaim : NodeClaim)
    (node : option Node) (w : World) (nc : NodeClaim) (cause : error) :
  In (KubeDelete nc (Some cause)) (trace_of (handleNodeClaim msg nodeClaim node w)) ->
  IsNotFound cause = false ->
  result_of (handleNodeClaim msg nodeClaim node w) =
    Some (ErrWrap "deleting the node on interruption message, " cause).
Proof.
  destruct (handleNodeClaim_shape msg nodeClaim node w) as (pre & w1 & Hk & _ & ->).
  assert (Hpre : ~ In (KubeDelete nc (Some cause)) pre).
  { intros Hin.
    assert (Hf : In (KubeDelete nc (Some cause)) (List.filter isKubeDelete pre))
      by (apply filter_In; split; [exact Hin | reflexivity]).
    rewrite Hk in Hf. destruct Hf. }
  destruct (actionForMessage msg); cbn [trace_of result_of fst snd].
  - intros Hin Hn. apply in_app_or in Hin. destruct Hin as [Hin | Hin]; [contradiction|].
    eapply deleteNodeClaim_delete_failed; eauto.
  - intros Hin. contradiction.
Qed.

Lemma filter_fromExecutor (p : Effect -> bool) (l : list Effect) :
  (forall e, fromExecutor e = true -> p e = false) ->
  forallb fromExecutor l = true -> List.filter p l = [].
Proof.
  intros Hp. induction l as [|e l IH]; cbn; [reflexivity|].
  intros H. apply andb_prop in H. destruct H as [He Hl].
  rewrite (Hp e He). auto.
Qed.

(** ** Handling one message *)

Section Indexes.

Variable nodeClaimInstanceIDMap : gmap string NodeClaim.
Variable nodeInstanceIDMap : gmap string Node.

Lemma handleInstanceIDs_unmatched (msg : Message) (ids : list string)
    (err : option error) (w : World) :
  (forall id, In id ids -> nodeClaimInstanceIDMap !! id = None) ->
  handleInstanceIDs nodeClaimInstanceIDMap nodeInstanceIDMap msg ids err w = (err, w, []).
Proof.
  induction ids as [|id ids IH]; intros Hnone; cbn [handleInstanceIDs].
  - reflexivity.
  - rewrite (Hnone id (or_introl eq_refl)).
    apply IH. intros id' Hin. apply Hnone. right. exact Hin.
Qed.

Lemma handleInstanceIDs_fromExecutor (msg : Message) (ids : list string)
    (err : option error) (w : World) :
  forallb fromExecutor
    (trace_of (handleInstanceIDs nodeClaimInstanceIDMap nodeInstanceIDMap msg ids err w))
  = true.
Proof.
  revert err w. induction ids as [|id ids IH]; intros err w; cbn [handleInstanceIDs].
  - reflexivity.
  - destruct (nodeClaimInstanceIDMap !! id) as [nodeClaim|]; [|apply IH].
    run. rewrite forallb_app, handleNodeClaim_fromExecutor.
    destruct (result_of (handleNodeClaim _ _ _ _)); apply IH.
Qed.

(** An error once accumulated stays. *)
Lemma handleInstanceIDs_keeps_error (msg : Message) (ids : list string)
    (e : error) (w : World) :
  result_of (handleInstanceIDs nodeClaimInstanceIDMap nodeInstanceIDMap msg ids (Some e) w)
  <> None.
Proof.
  revert e w. induction ids as [|id ids IH]; intros e w; cbn [handleInstanceIDs].
  - discriminate.
  - destruct (nodeClaimInstanceIDMap !! id) as [nodeClaim|]; [|apply IH].
    run. destruct (result_of (handleNodeClaim _ _ _ _)); apply IH.
Qed.

Lemma handleInstanceIDs_delete_failed (msg : Message) (ids : list string)
    (err : option error) (w : World) (nc : NodeClaim) (cause : error) :
  In (KubeDelete nc (Some cause))
    (trace_of (handleInstanceIDs nodeClaimInstanceIDMap nodeInstanceIDMap msg ids err w)) ->
  IsNotFound cause = false ->
  result_of (handleInstanceIDs nodeClaimInstanceIDMap nodeInstanceIDMap msg ids err w)
  <> None.
Proof.
  revert err w. induction ids as [|id ids IH]; intros err w; cbn [handleInstanceIDs].
  - intros [].
  - destruct (nodeClaimInstanceIDMap !! id) as [nodeClaim|]; [|apply IH].
    run. intros Hin Hn. apply in_app_or in Hin. destruct Hin as [Hin | Hin].
    + rewrite (handleNodeClaim_delete_failed _ _ _ _ _ _ Hin Hn).
      destruct err; apply handleInstanceIDs_keeps_error.
    + destruct (result_of (handleNodeClaim _ _ _ _)); eapply IH; eauto.
Qed.

Lemma handleMessage_noop (msg : Message) (w : World) :
  msgKind msg = NoOpKind ->
  handleMessage nodeClaimInstanceIDMap nodeInstanceIDMap msg w =
    (None, w, [ReceivedMessagesInc NoOpKind]).
Proof. intros K. unfold handleMessage. rewrite K. reflexivity. Qed.

Lemma handleMessage_other (msg : Message) (w : World) :
  msgKind msg <> NoOpKind ->
  let ids := handleInstanceIDs nodeClaimInstanceIDMap nodeInstanceIDMap msg
               (msgEC2InstanceIDs msg) None w in
  handleMessage nodeClaimInstanceIDMap nodeInstanceIDMap msg w =
    (match result_of ids with
     | Some e => Some (ErrWrap "acting on NodeClaims, " e)
     | None => None
     end,
     world_of ids,
     ReceivedMessagesInc (msgKind msg) :: trace_of ids ++
     [MessageLatencyObserve (timeNow (world_of ids) - msgStartTime msg)%Z]).
Proof.
  intros K. cbn zeta. unfold handleMessage.
  assert (Hk : Kind_eqb (msgKind msg) NoOpKind = false)
    by (destruct (msgKind msg); try reflexivity; congruence).
  rewrite bind_run. cbn [emit result_of world_of trace_of fst snd].
  rewrite Hk. unfold time_Since. run.
  destruct (result_of (handleInstanceIDs _ _ _ _ _ _)); run; reflexivity.
Qed.

(** [handleMessage] never touches the queue. *)
Lemma handleMessage_no_queue (msg : Message) (w : World) :
  List.filter isQueueDelete
    (trace_of (handleMessage nodeClaimInstanceIDMap nodeInstanceIDMap msg w)) = [] /\
  List.filter isDeletedMessagesInc
    (trace_of (handleMessage nodeClaimInstanceIDMap nodeInstanceIDMap msg w)) = [].
Proof.
  assert (Hq : forall e, fromExecutor e = true -> isQueueDelete e = false)
    by (intros []; cbn; congruence).
  assert (Hd : forall e, fromExecutor e = true -> isDeletedMessagesInc e = false)
    by (intros []; cbn; congruence).
  destruct (Kind_eqb (msgKind msg) NoOpKind) eqn:Hk.
  - assert (K : msgKind msg = NoOpKind) by (destruct (msgKind msg); try discriminate; auto).
    rewrite (handleMessage_noop msg w K). split; reflexivity.
  - assert (K : msgKind msg <> NoOpKind) by (intros K; rewrite K in Hk; discriminate).
    rewrite (handleMessage_other msg w K). cbn [trace_of snd List.filter].
    cbn [isQueueDelete isDeletedMessagesInc]. rewrite !List.filter_app.
    rewrite (filter_fromExecutor _ _ Hq (handleInstanceIDs_fromExecutor _ _ _ _)).
    rewrite (filter_fromExecutor _ _ Hd (handleInstanceIDs_fromExecutor _ _ _ _)).
    split; reflexivity.
Qed.

End Indexes.

(** ** One piece of the batch *)

Lemma deleteMessage_run (raw : option SQSMessage) (w : World) :
  deleteMessage raw w =
  match DeleteSQSMessage (sqsProvider c) raw w with
  | (Some err, w') =>
      (Some (ErrWrap "deleting sqs message, " err), w', [QueueDelete raw (Some err)])
  | (None, w') => (None, w', [QueueDelete raw None; DeletedMessagesInc])
  end.
Proof.
  unfold deleteMessage. run.
  destruct (DeleteSQSMessage (sqsProvider c) raw w) as [[err|] w']; run; reflexivity.
Qed.

Lemma processMessage_unparsed (ncm : gmap string NodeClaim) (nm : gmap string Node)
    (raw : option SQSMessage) (e : error) (w : World) :
  parseMessage raw = Err e ->
  processMessage ncm nm raw w =
    (result_of (deleteMessage raw w), world_of (deleteMessage raw w),
     LogError "parsing message, " e :: trace_of (deleteMessage raw w)).
Proof. intros P. unfold processMessage. rewrite P. run. reflexivity. Qed.

Lemma processMessage_handled (ncm : gmap string NodeClaim) (nm : gmap string Node)
    (raw : option SQSMessage) (msg : Message) (w : World) :
  parseMessage raw = Ok msg ->
  result_of (handleMessage ncm nm msg w) = None ->
  let handled := handleMessage ncm nm msg w in
  processMessage ncm nm raw w =
    (result_of (deleteMessage raw (world_of handled)),
     world_of (deleteMessage raw (world_of handled)),
     trace_of handled ++ trace_of (deleteMessage raw (world_of handled))).
Proof. intros P H. unfold processMessage. rewrite P. run. rewrite H. reflexivity. Qed.

Lemma processMessage_failed (ncm : gmap string NodeClaim) (nm : gmap string Node)
    (raw : option SQSMessage) (msg : Message) (w : World) (e : error) :
  parseMessage raw = Ok msg ->
  result_of (handleMessage ncm nm msg w) = Some e ->
  let handled := handleMessage ncm nm msg w in
  processMessage ncm nm raw w =
    (Some (ErrWrap "handling message, " e), world_of handled, trace_of handled).
Proof.
  intros P H. unfold processMessage. rewrite P. run. rewrite H.
  cbn [ret result_of world_of trace_of fst snd]. rewrite app_nil_r. reflexivity.
Qed.

(** C8: a parsed message none of whose instance ids is in the NodeClaim
    index is handled without error, without any call to a collaborator and
    without any remediation effect (no event, no cache mark, no create, no
    delete, no executor counter); the piece then makes its one delete call
    for the message on the queue. *)
Theorem handleMessage_correlation_miss (ncm : gmap string NodeClaim) (nm : gmap string Node)
    (raw : option SQSMessage) (msg : Message) (w : World) :
  parseMessage raw = Ok msg ->
  (forall id, In id (msgEC2InstanceIDs msg) -> ncm !! id = None) ->
  let handled := handleMessage ncm nm msg w in
  let piece := processMessage ncm nm raw w in
  result_of handled = None /\
  world_of handled = w /\
  List.filter isRemediation (trace_of handled) = [] /\
  List.filter isRemediation (trace_of piece) = [] /\
  List.filter isQueueDelete (trace_of piece) =
    [QueueDelete raw (fst (DeleteSQSMessage (sqsProvider c) raw w))].
Proof.
  intros P Hmiss. cbn zeta.
  assert (H : result_of (handleMessage ncm nm msg w) = None /\
              world_of (handleMessage ncm nm msg w) = w /\
              List.filter isRemediation (trace_of (handleMessage ncm nm msg w)) = [] /\
              List.filter isQueueDelete (trace_of (handleMessage ncm nm msg w)) = []).
  { destruct (Kind_eqb (msgKind msg) NoOpKind) eqn:Hk.
    - assert (K : msgKind msg = NoOpKind) by (destruct (msgKind msg); try discriminate; auto).
      rewrite (handleMessage_noop ncm nm msg w K). repeat split.
    - assert (K : msgKind msg <> NoOpKind) by (intros K; rewrite K in Hk; discriminate).
      rewrite (handleMessage_other ncm nm msg w K).
      rewrite (handleInstanceIDs_unmatched ncm nm msg _ None w Hmiss). repeat split. }
  destruct H as (Hr & Hw & Hrem & Hq).
  rewrite (processMessage_handled ncm nm raw msg w P Hr). cbn zeta.
  rewrite Hw, deleteMessage_run. cbn [trace_of snd].
  rewrite !List.filter_app, Hrem, Hq.
  repeat split; auto;
    destruct (DeleteSQSMessage (sqsProvider c) raw w) as [[err|] w']; reflexivity.
Qed.


Lemma handleMessage_delete_failed (ncm : gmap string NodeClaim) (nm : gmap string Node)
    (msg : Message) (w : World) (nc : NodeClaim) (cause : error) :
  In (KubeDelete nc (Some cause)) (trace_of (handleMessage ncm nm msg w)) ->
  IsNotFound cause = false ->
  result_of (handleMessage ncm nm msg w) <> None.
Proof.
  destruct (Kind_eqb (msgKind msg) NoOpKind) eqn:Hk.
  - assert (K : msgKind msg = NoOpKind) by (destruct (msgKind msg); try discriminate; auto).
    rewrite (handleMessage_noop ncm nm msg w K). cbn.
    intros [H | []]; discriminate.
  - assert (K : msgKind msg <> NoOpKind) by (intros K; rewrite K in Hk; discriminate).
    rewrite (handleMessage_other ncm nm msg w K). cbn [trace_of result_of fst snd].
    intros [H | Hin] Hn; [discriminate|].
    apply in_app_or in Hin. destruct Hin as [Hin | [H | []]]; [|discriminate].
    pose proof (handleInstanceIDs_delete_failed ncm nm msg _ None w nc cause Hin Hn) as Hs.
    destruct (result_of (handleInstanceIDs _ _ _ _ _ _)); [discriminate | contradiction].
Qed.

(** ** The reconciliation cycle *)

Lemma ParallelizeUntil_app (ncm : gmap string NodeClaim) (nm : gmap string Node)
    (pre : list (option SQSMessage)) (raw : option SQSMessage)
    (post : list (option SQSMessage)) (w : World) :
  piecesRun ncm nm (pre ++ [raw]) w = true ->
  let before := ParallelizeUntil ncm nm pre w in
  let piece := processMessage ncm nm raw (world_of before) in
  let after := ParallelizeUntil ncm nm post (world_of piece) in
  ParallelizeUntil ncm nm (pre ++ raw :: post) w =
    (result_of before ++ result_of piece :: result_of after,
     world_of after,
     trace_of before ++ trace_of piece ++ trace_of after).
Proof.
  cbn zeta. revert w.
  induction pre as [|m pre IH]; intros w Hrun; cbn [ParallelizeUntil piecesRun app] in *;
    apply andb_prop in Hrun; destruct Hrun as [Hw Hrest]; apply negb_true_iff in Hw.
  - run. rewrite Hw. run. rewrite app_nil_r. reflexivity.
  - run. rewrite Hw. run. rewrite (IH _ Hrest). cbn [result_of world_of trace_of fst snd].
    rewrite app_nil_r, <- !List.app_assoc. reflexivity.
Qed.

Lemma nonNil_app (a b : list (option error)) : nonNil (a ++ b) = nonNil a ++ nonNil b.
Proof.
  induction a as [|[e|] a IH]; cbn; [reflexivity | rewrite IH; reflexivity | exact IH].
Qed.

(** An error stored for a piece is one of the errors of the aggregate. *)
Lemma multierr_Combine_In (errs : list (option error)) (e : error) :
  In (Some e) errs ->
  flatten e = [e] ->
  In e (multierr_Errors (multierr_Combine errs)) /\ multierr_Combine errs <> None.
Proof.
  intros Hin Hflat.
  assert (Hn : In e (nonNil errs)).
  { induction errs as [|[x|] errs IH]; cbn in *.
    - destruct Hin.
    - destruct Hin as [[= ->] | Hin]; [left; reflexivity | right; auto].
    - destruct Hin as [H | Hin]; [discriminate | auto]. }
  unfold multierr_Combine.
  destruct (nonNil errs) as [|x [|y l]] eqn:E.
  - destruct Hn.
  - destruct Hn as [-> | []]. cbn. rewrite Hflat. split; [left; reflexivity | discriminate].
  - split; [|discriminate]. cbn [multierr_Errors flatten].
    apply in_concat. exists [e]. split; [|left; reflexivity].
    rewrite <- Hflat. apply in_map. exact Hn.
Qed.

Lemma Reconcile_run (w0 : World) (pre : list (option SQSMessage)) (raw : option SQSMessage)
    (post : list (option SQSMessage)) (ncm : gmap string NodeClaim) (nm : gmap string Node)
    (w : World) :
  startsPiece w0 pre raw post ncm nm w ->
  exists before after errsBefore errsAfter,
    trace_of (Reconcile w0) = before ++ trace_of (processMessage ncm nm raw w) ++ after /\
    result_of (Reconcile w0) =
      multierr_Combine (errsBefore ++ result_of (processMessage ncm nm raw w) :: errsAfter).
Proof.
  intros (changed & w1 & w2 & claims & w3 & nodes & w4 & Hc & Hg & Hl1 & Hl2 & -> & -> &
          Hrun & ->).
  unfold Reconcile, makeNodeClaimInstanceIDMap, makeNodeInstanceIDMap.
  run. rewrite Hc. cbn [fst snd]. 
  assert (Hu : forall b : bool,
             world_of ((if b then emit (LogDebug "watching interruption queue") else ret tt) w1)
             = w1) by (intros []; reflexivity).
  rewrite Hu, Hg. cbn [fst snd].
  assert (Hlen : Nat.eqb (length (pre ++ raw :: post)) 0 = false)
    by (rewrite length_app; cbn; apply Nat.eqb_neq; lia).
  rewrite Hlen. run. rewrite Hl1. cbn [fst snd]. run. rewrite Hl2. cbn [fst snd]. run.
  rewrite (ParallelizeUntil_app _ _ _ _ _ _ Hrun). cbn [result_of world_of trace_of fst snd].
  exists (trace_of ((if changed then emit (LogDebug "watching interruption queue")
                     else ret tt) w1) ++
          trace_of (ParallelizeUntil (indexNodeClaims claims ∅) (indexNodes nodes ∅) pre w4)).
  set (ncm := indexNodeClaims claims ∅). set (nm := indexNodes nodes ∅).
  exists (trace_of (ParallelizeUntil ncm nm post
                      (world_of (processMessage ncm nm raw
                                   (world_of (ParallelizeUntil ncm nm pre w4)))))).
  eexists _, _. split; [|reflexivity].
  rewrite ?app_nil_r, <- ?List.app_assoc. reflexivity.
Qed.

(** C1: when a message of the batch parses and its remediation
    ([handleMessage]) returns an error, the piece of that message makes no
    delete call on the queue and does not count a deletion, and the error,
    wrapped, is one of the errors of the aggregate that [Reconcile] returns,
    which is therefore not nil. A delete call on a matched NodeClaim that
    answers an error other than NotFound makes [handleMessage] return an
    error. *)
Theorem Reconcile_keeps_failed_message :
  (forall w0 pre raw post ncm nm w msg e,
     startsPiece w0 pre raw post ncm nm w ->
     parseMessage raw = Ok msg ->
     result_of (handleMessage ncm nm msg w) = Some e ->
     let piece := processMessage ncm nm raw w in
     List.filter isQueueDelete (trace_of piece) = [] /\
     List.filter isDeletedMessagesInc (trace_of piece) = [] /\
     (exists before after, trace_of (Reconcile w0) = before ++ trace_of piece ++ after) /\
     In (ErrWrap "handling message, " e) (multierr_Errors (result_of (Reconcile w0))) /\
     result_of (Reconcile w0) <> None) /\
  (forall ncm nm msg w nodeClaim cause,
     In (KubeDelete nodeClaim (Some cause)) (trace_of (handleMessage ncm nm msg w)) ->
     IsNotFound cause = false ->
     result_of (handleMessage ncm nm msg w) <> None).
Proof.
  split; [|exact handleMessage_delete_failed].
  intros w0 pre raw post ncm nm w msg e Hs P He. cbn zeta.
  destruct (Reconcile_run w0 pre raw post ncm nm w Hs)
    as (before & after & errsBefore & errsAfter & Ht & Hr).
  rewrite (processMessage_failed ncm nm raw msg w e P He) in *.
  cbn [trace_of result_of fst snd] in *.
  destruct (handleMessage_no_queue ncm nm msg w) as [Hq Hd].
  split; [exact Hq|]. split; [exact Hd|].
  split; [exists before, after; exact Ht|].
  rewrite Hr. apply multierr_Combine_In; [|reflexivity].
  apply in_or_app. right. left. reflexivity.
Qed.

(** C9: when a message of the batch does not parse and the delete call
    for it on the queue fails, that delete error, wrapped, is one of the
    errors of the aggregate that [Reconcile] returns, which is therefore
    not nil; the parse error is only logged. *)
Theorem Reconcile_unparsed_delete_failure (w0 : World) (pre : list (option SQSMessage))
    (raw : option SQSMessage) (post : list (option SQSMessage))
    (ncm : gmap string NodeClaim) (nm : gmap string Node) (w : World)
    (e cause : error) :
  startsPiece w0 pre raw post ncm nm w ->
  parseMessage raw = Err e ->
  fst (DeleteSQSMessage (sqsProvider c) raw w) = Some cause ->
  result_of (processMessage ncm nm raw w) = Some (ErrWrap "deleting sqs message, " cause) /\
  In (ErrWrap "deleting sqs message, " cause) (multierr_Errors (result_of (Reconcile w0))) /\
  result_of (Reconcile w0) <> None.
Proof.
  intros Hs P Hd.
  destruct (Reconcile_run w0 pre raw post ncm nm w Hs)
    as (before & after & errsBefore & errsAfter & Ht & Hr).
  assert (Hp : result_of (processMessage ncm nm raw w) =
               Some (ErrWrap "deleting sqs message, " cause)).
  { rewrite (processMessage_unparsed ncm nm raw e w P), deleteMessage_run.
    destruct (DeleteSQSMessage (sqsProvider c) raw w) as [[err|] w']; cbn in *;
      congruence. }
  split; [exact Hp|].
  rewrite Hr, Hp. apply multierr_Combine_In; [|reflexivity].
  apply in_or_app. right. left. reflexivity.
Qed.

(** C6: with a non-empty batch, when listing the NodeClaims fails, or
    listing the Nodes fails after it, [Reconcile] returns that error
    (wrapped) at once: no collaborator is called after the failing list,
    and the only effect requested in the cycle is the debug line that may
    precede the receive call, so nothing is parsed, handled or deleted. *)
Theorem Reconcile_listing_failure (w0 : World) (batch : list (option SQSMessage)) :
  let changed := HasChanged (cm c) (Name (sqsProvider c)) w0 in
  let got := GetSQSMessages (sqsProvider c) (snd changed) in
  let claims := ListNodeClaims (kubeClient c) (snd got) in
  let nodes := ListNodes (kubeClient c) (snd claims) in
  fst got = Ok batch ->
  batch <> [] ->
  (forall e, fst claims = Err e ->
     result_of (Reconcile w0) = Some (ErrWrap "making nodeclaim instance id map, " e) /\
     world_of (Reconcile w0) = snd claims /\
     (forall eff, In eff (trace_of (Reconcile w0)) ->
        eff = LogDebug "watching interruption queue")) /\
  (forall items e, fst claims = Ok items -> fst nodes = Err e ->
     result_of (Reconcile w0) =
       Some (ErrWrap "making node instance id map, " (ErrWrap "listing nodes, " e)) /\
     world_of (Reconcile w0) = snd nodes /\
     (forall eff, In eff (trace_of (Reconcile w0)) ->
        eff = LogDebug "watching interruption queue")).
Proof.
  cbn zeta. intros Hg Hne.
  assert (Hlen : Nat.eqb (length batch) 0 = false)
    by (destruct batch; [congruence | reflexivity]).
  unfold Reconcile, makeNodeClaimInstanceIDMap, makeNodeInstanceIDMap. run.
  destruct (HasChanged (cm c) (Name (sqsProvider c)) w0) as [changed w1].
  cbn [fst snd] in *.
  assert (Hu : world_of ((if changed then emit (LogDebug "watching interruption queue")
                          else ret tt) w1) = w1) by (destruct changed; reflexivity).
  assert (Ht : forall eff,
             In eff (trace_of ((if changed then emit (LogDebug "watching interruption queue")
                                else ret tt) w1) ++ []) ->
             eff = LogDebug "watching interruption queue").
  { destruct changed; cbn; intros eff H; [destruct H as [H | []]; auto | destruct H]. }
  rewrite Hu.
  destruct (GetSQSMessages (sqsProvider c) w1) as [got w2]. cbn [fst snd] in *. subst got.
  rewrite Hlen. run.
  destruct (ListNodeClaims (kubeClient c) w2) as [claims w3]. cbn [fst snd] in *.
  split.
  - intros e ->. run. repeat split. exact Ht.
  - intros items e ->. run.
    destruct (ListNodes (kubeClient c) w3) as [nodes w4]. cbn [fst snd]. intros ->. run.
    repeat split. exact Ht.
Qed.

(** ** More of the controller: the correlation indexes *)

Lemma indexNodeClaims_snoc (items : list NodeClaim) (item : NodeClaim)
    (m : gmap string NodeClaim) :
  indexNodeClaims (items ++ [item]) m =
  match instanceIDOf (statusProviderID (ncStatus item)) with
  | Some id => <[id := item]> (indexNodeClaims items m)
  | None => indexNodeClaims items m
  end.
Proof.
  revert m. induction items as [|x items IH]; intros m; cbn [app indexNodeClaims].
  - unfold instanceIDOf.
    destruct (String.eqb (statusProviderID (ncStatus item)) ""); [reflexivity|].
    destruct (ParseInstanceID (statusProviderID (ncStatus item))) as [id|]; [|reflexivity].
    destruct (String.eqb id ""); reflexivity.
  - destruct (String.eqb (statusProviderID (ncStatus x)) ""); [apply IH|].
    destruct (ParseInstanceID (statusProviderID (ncStatus x))) as [id|]; [|apply IH].
    destruct (String.eqb id ""); apply IH.
Qed.

Lemma instanceIDOf_Some (providerID id : string) :
  instanceIDOf providerID = Some id <->
  providerID <> "" /\ ParseInstanceID providerID = Ok id /\ id <> "".
Proof.
  unfold instanceIDOf.
  destruct (String.eqb providerID "") eqn:Ep.
  - apply String.eqb_eq in Ep. split; [discriminate | intros (H & _); contradiction].
  - apply String.eqb_neq in Ep.
    destruct (ParseInstanceID providerID) as [id'|e].
    + destruct (String.eqb id' "") eqn:Ei.
      * apply String.eqb_eq in Ei. split; [discriminate|].
        intros (_ & [= ->] & Hn). contradiction.
      * apply String.eqb_neq in Ei. split.
        -- intros [= ->]. auto.
        -- intros (_ & [= ->] & _). reflexivity.
    + split; [discriminate | intros (_ & H & _); discriminate].
Qed.

(** The lookup in the index, read from the end of the listing. *)
Lemma indexNodeClaims_lookup (items : list NodeClaim) (id : string) :
  indexNodeClaims items ∅ !! id =
  List.find (fun item =>
               match instanceIDOf (statusProviderID (ncStatus item)) with
               | Some id' => String.eqb id' id
               | None => false
               end) (rev items).
Proof.
  induction items as [|item items IH] using rev_ind.
  - cbn. apply lookup_empty.
  - rewrite indexNodeClaims_snoc, rev_app_distr. cbn [rev app List.find].
    destruct (instanceIDOf (statusProviderID (ncStatus item))) as [id'|]; [|exact IH].
    destruct (String.eqb id' id) eqn:E.
    + apply String.eqb_eq in E. subst. apply lookup_insert_eq.
    + apply String.eqb_neq in E. rewrite lookup_insert_ne by exact E. exact IH.
Qed.

Lemma indexNodeClaims_indexed (items : list NodeClaim) (id : string) (nc : NodeClaim) :
  indexNodeClaims items ∅ !! id = Some nc ->
  In nc items /\ instanceIDOf (statusProviderID (ncStatus nc)) = Some id.
Proof.
  rewrite indexNodeClaims_lookup. intros H.
  apply find_some in H. destruct H as [Hin Hk].
  split; [apply in_rev; exact Hin|].
  destruct (instanceIDOf (statusProviderID (ncStatus nc))) as [id'|]; [|discriminate].
  apply String.eqb_eq in Hk. subst. reflexivity.
Qed.

(** X1: a NodeClaim found in the index under an instance id was listed, has
    a non-empty provider id, and that provider id parses to this very
    instance id, which is not empty. *)
Theorem indexNodeClaims_sound (items : list NodeClaim) (id : string) (nc : NodeClaim) :
  indexNodeClaims items ∅ !! id = Some nc ->
  In nc items /\
  statusProviderID (ncStatus nc) <> "" /\
  ParseInstanceID (statusProviderID (ncStatus nc)) = Ok id /\
  id <> "".
Proof.
  intros H. destruct (indexNodeClaims_indexed items id nc H) as [Hin Hk].
  split; [exact Hin|].
  apply instanceIDOf_Some. exact Hk.
Qed.

(** X2: when several listed NodeClaims have the same instance id, the last
    one of the listing is the one the index holds: a claim indexed under
    [id] after which no listed claim is indexed under [id] is the value of
    the lookup. *)
Theorem indexNodeClaims_last_wins (pre post : list NodeClaim) (nc : NodeClaim) (id : string) :
  instanceIDOf (statusProviderID (ncStatus nc)) = Some id ->
  (forall x, In x post -> instanceIDOf (statusProviderID (ncStatus x)) <> Some id) ->
  indexNodeClaims (pre ++ nc :: post) ∅ !! id = Some nc.
Proof.
  intros Hnc Hpost. rewrite indexNodeClaims_lookup, rev_app_distr. cbn [rev].
  rewrite <- List.app_assoc. cbn [app].
  assert (Hskip : forall l tail,
             (forall x, In x l -> instanceIDOf (statusProviderID (ncStatus x)) <> Some id) ->
             List.find (fun item =>
                          match instanceIDOf (statusProviderID (ncStatus item)) with
                          | Some id' => String.eqb id' id
                          | None => false
                          end) (l ++ tail) =
             List.find (fun item =>
                          match instanceIDOf (statusProviderID (ncStatus item)) with
                          | Some id' => String.eqb id' id
                          | None => false
                          end) tail).
  { induction l as [|x l IH]; intros tail Hl; cbn [app List.find]; [reflexivity|].
    pose proof (Hl x (or_introl eq_refl)) as Hx.
    destruct (instanceIDOf (statusProviderID (ncStatus x))) as [id'|].
    - destruct (String.eqb id' id) eqn:E.
      + apply String.eqb_eq in E. subst. contradiction.
      + apply IH. intros y Hy. apply Hl. right. exact Hy.
    - apply IH. intros y Hy. apply Hl. right. exact Hy. }
  rewrite Hskip by (intros x Hx; apply Hpost, in_rev; exact Hx).
  cbn [List.find]. rewrite Hnc, String.eqb_refl. reflexivity.
Qed.

(** X3: an instance id is absent from the NodeClaim index exactly when no
    listed claim is indexed under it; in particular claims without provider
    id, with a provider id that does not parse or that parses to the empty
    instance id never enter the index, and the empty string is never a
    key. *)
Theorem indexNodeClaims_miss (items : list NodeClaim) (id : string) :
  (indexNodeClaims items ∅ !! id = None <->
     forall x, In x items -> instanceIDOf (statusProviderID (ncStatus x)) <> Some id) /\
  indexNodeClaims items ∅ !! "" = None.
Proof.
  assert (H : forall k,
             indexNodeClaims items ∅ !! k = None <->
             forall x, In x items -> instanceIDOf (statusProviderID (ncStatus x)) <> Some k).
  { intros k. rewrite indexNodeClaims_lookup. split.
    - intros Hnone x Hin Hx.
      apply in_rev in Hin.
      pose proof (find_none _ _ Hnone x Hin) as Hf. cbn beta in Hf.
      rewrite Hx, String.eqb_refl in Hf. discriminate.
    - intros Hall.
      destruct (List.find _ (rev items)) as [x|] eqn:E; [|reflexivity].
      apply find_some in E. destruct E as [Hin Hk].
      apply in_rev in Hin. specialize (Hall x Hin).
      destruct (instanceIDOf (statusProviderID (ncStatus x))) as [id'|]; [|discriminate].
      apply String.eqb_eq in Hk. subst. contradiction. }
  split; [apply H|].
  apply H. intros x _ Hx. apply instanceIDOf_Some in Hx.
  destruct Hx as (_ & _ & Hne). contradiction.
Qed.

Lemma indexNodes_snoc (items : list Node) (item : Node) (m : gmap string Node) :
  indexNodes (items ++ [item]) m =
  match instanceIDOf (nodeProviderID item) with
  | Some id => <[id := item]> (indexNodes items m)
  | None => indexNodes items m
  end.
Proof.
  revert m. induction items as [|x items IH]; intros m; cbn [app indexNodes].
  - unfold instanceIDOf.
    destruct (String.eqb (nodeProviderID item) ""); [reflexivity|].
    destruct (ParseInstanceID (nodeProviderID item)) as [id|]; [|reflexivity].
    destruct (String.eqb id ""); reflexivity.
  - destruct (String.eqb (nodeProviderID x) ""); [apply IH|].
    destruct (ParseInstanceID (nodeProviderID x)) as [id|]; [|apply IH].
    destruct (String.eqb id ""); apply IH.
Qed.

Lemma indexNodes_lookup (items : list Node) (id : string) :
  indexNodes items ∅ !! id =
  List.find (fun item =>
               match instanceIDOf (nodeProviderID item) with
               | Some id' => String.eqb id' id
               | None => false
               end) (rev items).
Proof.
  induction items as [|item items IH] using rev_ind.
  - cbn. apply lookup_empty.
  - rewrite indexNodes_snoc, rev_app_distr. cbn [rev app List.find].
    destruct (instanceIDOf (nodeProviderID item)) as [id'|]; [|exact IH].
    destruct (String.eqb id' id) eqn:E.
    + apply String.eqb_eq in E. subst. apply lookup_insert_eq.
    + apply String.eqb_neq in E. rewrite lookup_insert_ne by exact E. exact IH.
Qed.

(** X4: the Node index. A Node found under an instance id was listed and
    its non-empty provider id parses to that non-empty instance id; an
    instance id is absent exactly when no listed Node is indexed under it;
    and a Node indexed under [id] that is followed by no other Node with
    that id is the value of the lookup (the last of the listing wins). *)
Theorem indexNodes_correct (items : list Node) (id : string) :
  (forall n, indexNodes items ∅ !! id = Some n ->
     In n items /\ nodeProviderID n <> "" /\
     ParseInstanceID (nodeProviderID n) = Ok id /\ id <> "") /\
  (indexNodes items ∅ !! id = None <->
     forall x, In x items -> instanceIDOf (nodeProviderID x) <> Some id) /\
  (forall pre n post,
     items = pre ++ n :: post ->
     instanceIDOf (nodeProviderID n) = Some id ->
     (forall x, In x post -> instanceIDOf (nodeProviderID x) <> Some id) ->
     indexNodes items ∅ !! id = Some n).
Proof.
  rewrite indexNodes_lookup. split; [|split].
  - intros n H. apply find_some in H. destruct H as [Hin Hk].
    split; [apply in_rev; exact Hin|].
    apply instanceIDOf_Some.
    destruct (instanceIDOf (nodeProviderID n)) as [id'|]; [|discriminate].
    apply String.eqb_eq in Hk. subst. reflexivity.
  - split.
    + intros Hnone x Hin Hx. apply in_rev in Hin.
      pose proof (find_none _ _ Hnone x Hin) as Hf. cbn beta in Hf.
      rewrite Hx, String.eqb_refl in Hf. discriminate.
    + intros Hall.
      destruct (List.find _ (rev items)) as [x|] eqn:E; [|reflexivity].
      apply find_some in E. destruct E as [Hin Hk].
      apply in_rev in Hin. specialize (Hall x Hin).
      destruct (instanceIDOf (nodeProviderID x)) as [id'|]; [|discriminate].
      apply String.eqb_eq in Hk. subst. contradiction.
  - intros pre n post -> Hn Hpost. rewrite rev_app_distr. cbn [rev].
    rewrite <- List.app_assoc. cbn [app].
    assert (Hskip : forall l tail,
               (forall x, In x l -> instanceIDOf (nodeProviderID x) <> Some id) ->
               List.find (fun item =>
                            match instanceIDOf (nodeProviderID item) with
                            | Some id' => String.eqb id' id
                            | None => false
                            end) (l ++ tail) =
               List.find (fun item =>
                            match instanceIDOf (nodeProviderID item) with
                            | Some id' => String.eqb id' id
                            | None => false
                            end) tail).
    { induction l as [|x l IH]; intros tail Hl; cbn [app List.find]; [reflexivity|].
      pose proof (Hl x (or_introl eq_refl)) as Hx.
      destruct (instanceIDOf (nodeProviderID x)) as [id'|].
      - destruct (String.eqb id' id) eqn:E.
        + apply String.eqb_eq in E. subst. contradiction.
        + apply IH. intros y Hy. apply Hl. right. exact Hy.
      - apply IH. intros y Hy. apply Hl. right. exact Hy. }
    rewrite Hskip by (intros x Hx; apply Hpost, in_rev; exact Hx).
    cbn [List.find]. rewrite Hn, String.eqb_refl. reflexivity.
Qed.

(** ** More of the controller: the executor on one NodeClaim *)

Lemma notifyForMessage_run (msg : Message) (nodeClaim : NodeClaim) (n : option Node)
    (w : World) :
  result_of (notifyForMessage msg nodeClaim n w) = tt /\
  world_of (notifyForMessage msg nodeClaim n w) = w /\
  (trace_of (notifyForMessage msg nodeClaim n w) = [] \/
   exists ev, ev <> TerminatingOnInterruption /\
              trace_of (notifyForMessage msg nodeClaim n w) = [Publish ev n nodeClaim]).
Proof.
  unfold notifyForMessage.
  destruct (msgKind msg); try destruct (existsb _ _); cbn;
    repeat split; try (left; reflexivity);
    right; eexists; (split; [|reflexivity]); discriminate.
Qed.

Lemma handleNodeClaim_not_spot (msg : Message) (nodeClaim : NodeClaim) (node : option Node)
    (w : World) :
  msgKind msg <> SpotInterruptionKind ->
  handleNodeClaim msg nodeClaim node w =
  match actionForMessage msg with
  | NoAction =>
      (None, w,
       trace_of (notifyForMessage msg nodeClaim node w) ++
       [ActionsPerformedInc NoAction])
  | CordonAndDrain =>
      (result_of (deleteNodeClaim nodeClaim node w),
       world_of (deleteNodeClaim nodeClaim node w),
       trace_of (notifyForMessage msg nodeClaim node w) ++
       ActionsPerformedInc CordonAndDrain :: trace_of (deleteNodeClaim nodeClaim node w))
  end.
Proof.
  intros K.
  assert (Hk : Kind_eqb (msgKind msg) SpotInterruptionKind = false)
    by (destruct (msgKind msg); try reflexivity; congruence).
  destruct (notifyForMessage_run msg nodeClaim node w) as (_ & Hw & _).
  unfold handleNodeClaim. rewrite Hk. run. rewrite Hw.
  destruct (actionForMessage msg); run; reflexivity.
Qed.

Lemma In_filter_nil {A : Type} (p : A -> bool) (l : list A) (x : A) :
  List.filter p l = [] -> In x l -> p x = false.
Proof.
  intros Hf Hin. destruct (p x) eqn:E; [|reflexivity].
  assert (H : In x (List.filter p l)) by (apply filter_In; auto).
  rewrite Hf in H. destruct H.
Qed.

Lemma handleNodeClaim_In_delete (msg : Message) (nodeClaim : NodeClaim)
    (node : option Node) (w : World) (nc : NodeClaim) (answer : option error) :
  In (KubeDelete nc answer) (trace_of (handleNodeClaim msg nodeClaim node w)) ->
  nc = nodeClaim /\
  actionForMessage msg = CordonAndDrain /\
  Time_IsZero (ncDeletionTimestamp nodeClaim) = true.
Proof.
  destruct (handleNodeClaim_shape msg nodeClaim node w) as (pre & w1 & Hk & _ & ->).
  destruct (actionForMessage msg); cbn [trace_of snd]; intros Hin.
  - apply in_app_or in Hin. destruct Hin as [Hin | Hin].
    { pose proof (In_filter_nil _ _ _ Hk Hin) as Hf. discriminate. }
    destruct (Time_IsZero (ncDeletionTimestamp nodeClaim)) eqn:Hz.
    + rewrite (deleteNodeClaim_unmarked _ _ _ Hz) in Hin.
      destruct (Delete (kubeClient c) nodeClaim w1) as [[err|] w']; cbn [trace_of snd] in Hin.
      * destruct Hin as [[= <- _] | []]. auto.
      * destruct Hin as [[= <- _] | [H | [H | [H | []]]]]; try discriminate. auto.
    + rewrite (deleteNodeClaim_marked _ _ _ Hz) in Hin. destruct Hin.
  - pose proof (In_filter_nil _ _ _ Hk Hin) as Hf. discriminate.
Qed.

(** X5: [handleNodeClaim] calls Delete at most once, only for the NodeClaim
    it was given, only when the action of the message is CordonAndDrain and
    only when the deletion marker of the claim is not set. *)
Theorem handleNodeClaim_delete_guard (msg : Message) (nodeClaim : NodeClaim)
    (node : option Node) (w : World) :
  length (List.filter isKubeDelete (trace_of (handleNodeClaim msg nodeClaim node w))) <= 1 /\
  (forall nc answer,
     In (KubeDelete nc answer) (trace_of (handleNodeClaim msg nodeClaim node w)) ->
     nc = nodeClaim /\
     actionForMessage msg = CordonAndDrain /\
     Time_IsZero (ncDeletionTimestamp nodeClaim) = true).
Proof.
  split; [|intros nc answer Hin; eapply handleNodeClaim_In_delete; exact Hin].
  destruct (handleNodeClaim_shape msg nodeClaim node w) as (pre & w1 & Hk & _ & ->).
  destruct (actionForMessage msg); cbn [trace_of snd]; [|rewrite Hk; cbn; lia].
  rewrite List.filter_app, Hk. cbn [app].
  destruct (Time_IsZero (ncDeletionTimestamp nodeClaim)) eqn:Hz.
  - rewrite (deleteNodeClaim_unmarked _ _ _ Hz).
    destruct (Delete (kubeClient c) nodeClaim w1) as [[err|] w']; cbn; lia.
  - rewrite (deleteNodeClaim_marked _ _ _ Hz). cbn. lia.
Qed.

(** Outside a spot interruption nothing is created and nothing is marked. *)
Lemma handleNodeClaim_not_spot_quiet (msg : Message) (nodeClaim : NodeClaim)
    (node : option Node) (w : World) (e : Effect) :
  msgKind msg <> SpotInterruptionKind ->
  In e (trace_of (handleNodeClaim msg nodeClaim node w)) ->
  isKubeCreate e = false /\ isMarkUnavailable e = false.
Proof.
  intros K.
  assert (Hdc : List.filter isKubeCreate (trace_of (deleteNodeClaim nodeClaim node w)) = [])
    by (apply filter_deleteNodeClaim; reflexivity).
  assert (Hdm : List.filter isMarkUnavailable (trace_of (deleteNodeClaim nodeClaim node w)) = [])
    by (apply filter_deleteNodeClaim; reflexivity).
  assert (Hn : forall x, In x (trace_of (notifyForMessage msg nodeClaim node w)) ->
                         isKubeCreate x = false /\ isMarkUnavailable x = false).
  { intros x Hin.
    destruct (notifyForMessage_run msg nodeClaim node w) as (_ & _ & [Ht | (ev & _ & Ht)]);
      rewrite Ht in Hin; [destruct Hin|].
    destruct Hin as [<- | []]. split; reflexivity. }
  rewrite (handleNodeClaim_not_spot msg nodeClaim node w K).
  destruct (actionForMessage msg); cbn [trace_of snd]; intros Hin;
    apply in_app_or in Hin; destruct Hin as [Hin | Hin]; auto.
  - destruct Hin as [<- | Hin]; [split; reflexivity|].
    split; [exact (In_filter_nil _ _ _ Hdc Hin) | exact (In_filter_nil _ _ _ Hdm Hin)].
  - destruct Hin as [<- | []]. split; reflexivity.
Qed.

(** The creations and the marks of a spot interruption. *)
Lemma handleNodeClaim_spot_In (msg : Message) (nodeClaim : NodeClaim)
    (node : option Node) (w : World) (e : Effect) :
  msgKind msg = SpotInterruptionKind ->
  In e (trace_of (handleNodeClaim msg nodeClaim node w)) ->
  isKubeCreate e || isMarkUnavailable e = true ->
  (exists answer, e = KubeCreate (newNodeClaim nodeClaim) answer) \/
  (e = MarkUnavailable SpotInterruptionKind
         (label (ncLabels nodeClaim) LabelInstanceTypeStable)
         (label (ncLabels nodeClaim) LabelTopologyZone) CapacityTypeSpot /\
   label (ncLabels nodeClaim) LabelInstanceTypeStable <> "" /\
   label (ncLabels nodeClaim) LabelTopologyZone <> "").
Proof.
  intros K.
  rewrite (handleNodeClaim_spot msg nodeClaim node w K). cbn zeta. cbn [trace_of snd].
  set (created := Create (kubeClient c) (newNodeClaim nodeClaim) w).
  assert (Hdc : List.filter isKubeCreate
                  (trace_of (deleteNodeClaim nodeClaim node (snd created))) = [])
    by (apply filter_deleteNodeClaim; reflexivity).
  assert (Hdm : List.filter isMarkUnavailable
                  (trace_of (deleteNodeClaim nodeClaim node (snd created))) = [])
    by (apply filter_deleteNodeClaim; reflexivity).
  intros Hin He. cbn [app] in Hin.
  destruct Hin as [<- | [<- | Hin]]; try discriminate.
  apply in_app_or in Hin. destruct Hin as [Hin | Hin].
  { destruct (negb (String.eqb (label (ncLabels nodeClaim) LabelTopologyZone) "")) eqn:Ez;
      [|destruct Hin].
    destruct (negb (String.eqb (label (ncLabels nodeClaim) LabelInstanceTypeStable) ""))
      eqn:Ei; [|destruct Hin].
    cbn [andb] in Hin. destruct Hin as [<- | []].
    apply negb_true_iff in Ez, Ei. apply String.eqb_neq in Ez, Ei.
    right. auto. }
  destruct Hin as [<- | Hin]; [left; eexists; reflexivity|].
  apply in_app_or in Hin. destruct Hin as [Hin | Hin].
  { destruct (fst created); [destruct Hin as [<- | []]; discriminate | destruct Hin]. }
  pose proof (In_filter_nil _ _ _ Hdc Hin) as H1.
  pose proof (In_filter_nil _ _ _ Hdm Hin) as H2.
  rewrite H1, H2 in He. discriminate.
Qed.

Lemma handleNodeClaim_In_create (msg : Message) (nodeClaim : NodeClaim)
    (node : option Node) (w : World) (nc : NodeClaim) (answer : option error) :
  In (KubeCreate nc answer) (trace_of (handleNodeClaim msg nodeClaim node w)) ->
  msgKind msg = SpotInterruptionKind /\ nc = newNodeClaim nodeClaim.
Proof.
  intros Hin.
  destruct (Kind_eqb (msgKind msg) SpotInterruptionKind) eqn:Hk.
  - assert (K : msgKind msg = SpotInterruptionKind)
      by (destruct (msgKind msg); try discriminate; reflexivity).
    split; [exact K|].
    destruct (handleNodeClaim_spot_In msg nodeClaim node w _ K Hin eq_refl)
      as [[a [= -> _]] | [H _]]; [reflexivity | discriminate].
  - assert (K : msgKind msg <> SpotInterruptionKind)
      by (intros K; rewrite K in Hk; discriminate).
    destruct (handleNodeClaim_not_spot_quiet msg nodeClaim node w _ K Hin) as [H _].
    discriminate.
Qed.

(** X6: only a SpotInterruption message makes [handleNodeClaim] write to
    the unavailable-offerings cache or create a NodeClaim; the created
    object is the replacement built from the claim it was given, and the
    mark carries the non-empty zone and instance type labels of that claim,
    the kind as reason and the capacity type spot. *)
Theorem handleNodeClaim_only_spot_replaces (msg : Message) (nodeClaim : NodeClaim)
    (node : option Node) (w : World) :
  (forall nc answer,
     In (KubeCreate nc answer) (trace_of (handleNodeClaim msg nodeClaim node w)) ->
     msgKind msg = SpotInterruptionKind /\ nc = newNodeClaim nodeClaim) /\
  (forall reason instanceType zone capacityType,
     In (MarkUnavailable reason instanceType zone capacityType)
        (trace_of (handleNodeClaim msg nodeClaim node w)) ->
     msgKind msg = SpotInterruptionKind /\
     reason = SpotInterruptionKind /\
     instanceType = label (ncLabels nodeClaim) LabelInstanceTypeStable /\
     zone = label (ncLabels nodeClaim) LabelTopologyZone /\
     instanceType <> "" /\ zone <> "" /\
     capacityType = "spot").
Proof.
  split; [intros nc answer Hin; eapply handleNodeClaim_In_create; exact Hin|].
  intros reason instanceType zone capacityType Hin.
  destruct (Kind_eqb (msgKind msg) SpotInterruptionKind) eqn:Hk.
  - assert (K : msgKind msg = SpotInterruptionKind)
      by (destruct (msgKind msg); try discriminate; reflexivity).
    split; [exact K|].
    destruct (handleNodeClaim_spot_In msg nodeClaim node w _ K Hin eq_refl)
      as [[a H] | ([= -> -> -> ->] & Hi & Hz)]; [discriminate|].
    repeat split; auto.
  - assert (K : msgKind msg <> SpotInterruptionKind)
      by (intros K; rewrite K in Hk; discriminate).
    destruct (handleNodeClaim_not_spot_quiet msg nodeClaim node w _ K Hin) as [_ H].
    discriminate.
Qed.

(** X7: when the action of the message is NoAction (rebalance
    recommendation, no-op or unknown kind) [handleNodeClaim] succeeds, calls
    no collaborator and requests nothing but the event of the kind, if it
    has one, and the actions counter. *)
Theorem handleNodeClaim_no_action (msg : Message) (nodeClaim : NodeClaim)
    (node : option Node) (w : World) :
  actionForMessage msg = NoAction ->
  result_of (handleNodeClaim msg nodeClaim node w) = None /\
  world_of (handleNodeClaim msg nodeClaim node w) = w /\
  trace_of (handleNodeClaim msg nodeClaim node w) =
    (if Kind_eqb (msgKind msg) RebalanceRecommendationKind
     then [Publish RebalanceRecommendation node nodeClaim] else []) ++
    [ActionsPerformedInc NoAction].
Proof.
  intros Ha.
  assert (K : msgKind msg <> SpotInterruptionKind).
  { intros K. unfold actionForMessage in Ha. rewrite K in Ha. discriminate. }
  rewrite (handleNodeClaim_not_spot msg nodeClaim node w K), Ha.
  cbn [result_of world_of trace_of fst snd]. repeat split.
  unfold actionForMessage in Ha. unfold notifyForMessage.
  destruct (msgKind msg); try discriminate; reflexivity.
Qed.

(** X8: a StateChange message publishes the Stopping event when its detail
    state is "stopping" or "stopped" and the Terminating event for every
    other state; in both cases the action is counted as CordonAndDrain and
    the delete step follows. *)
Theorem handleNodeClaim_state_change (msg : Message) (nodeClaim : NodeClaim)
    (node : option Node) (w : World) :
  msgKind msg = StateChangeKind ->
  exists ev,
    ((msgDetailState msg = "stopping" \/ msgDetailState msg = "stopped") -> ev = Stopping) /\
    (msgDetailState msg <> "stopping" -> msgDetailState msg <> "stopped" ->
       ev = Terminating) /\
    handleNodeClaim msg nodeClaim node w =
      (result_of (deleteNodeClaim nodeClaim node w),
       world_of (deleteNodeClaim nodeClaim node w),
       Publish ev node nodeClaim :: ActionsPerformedInc CordonAndDrain ::
       trace_of (deleteNodeClaim nodeClaim node w)).
Proof.
  intros K.
  assert (Hns : msgKind msg <> SpotInterruptionKind) by (rewrite K; discriminate).
  rewrite (handleNodeClaim_not_spot msg nodeClaim node w Hns).
  unfold actionForMessage, notifyForMessage. rewrite K. cbn [existsb].
  destruct (String.eqb (msgDetailState msg) "stopping") eqn:E1.
  - exists Stopping. cbn [orb]. repeat split.
    intros H1. apply String.eqb_eq in E1. contradiction.
  - destruct (String.eqb (msgDetailState msg) "stopped") eqn:E2.
    + exists Stopping. cbn [orb]. repeat split.
      intros _ H2. apply String.eqb_eq in E2. contradiction.
    + exists Terminating. cbn [orb]. apply String.eqb_neq in E1, E2. repeat split.
      intros [H | H]; contradiction.
Qed.

Lemma handleNodeClaim_counts_action (msg : Message) (nodeClaim : NodeClaim)
    (node : option Node) (w : World) :
  List.filter isActionsPerformedInc (trace_of (handleNodeClaim msg nodeClaim node w)) =
    [ActionsPerformedInc (actionForMessage msg)].
Proof.
  assert (Hd : forall w', List.filter isActionsPerformedInc
                            (trace_of (deleteNodeClaim nodeClaim node w')) = [])
    by (intros; apply filter_deleteNodeClaim; reflexivity).
  destruct (Kind_eqb (msgKind msg) SpotInterruptionKind) eqn:Hk.
  - assert (K : msgKind msg = SpotInterruptionKind)
      by (destruct (msgKind msg); try discriminate; reflexivity).
    rewrite (handleNodeClaim_spot msg nodeClaim node w K). cbn zeta. cbn [trace_of snd].
    unfold actionForMessage. rewrite K.
    destruct (negb _ && negb _); destruct (fst (Create _ _ _)); cbn; rewrite Hd; reflexivity.
  - assert (K : msgKind msg <> SpotInterruptionKind)
      by (intros K; rewrite K in Hk; discriminate).
    rewrite (handleNodeClaim_not_spot msg nodeClaim node w K).
    assert (Hn : List.filter isActionsPerformedInc
                   (trace_of (notifyForMessage msg nodeClaim node w)) = []).
    { destruct (notifyForMessage_run msg nodeClaim node w) as (_ & _ & [Ht | (ev & _ & Ht)]);
        rewrite Ht; reflexivity. }
    destruct (actionForMessage msg); cbn [trace_of snd];
      rewrite List.filter_app, Hn; cbn; rewrite ?Hd; reflexivity.
Qed.

(** ** More of the controller: one message *)

Lemma handleInstanceIDs_counts (ncm : gmap string NodeClaim) (nm : gmap string Node)
    (msg : Message) (ids : list string) (err : option error) (w : World) :
  List.filter isActionsPerformedInc (trace_of (handleInstanceIDs ncm nm msg ids err w)) =
    repeat (ActionsPerformedInc (actionForMessage msg))
           (length (List.filter (matched ncm) ids)).
Proof.
  revert err w. induction ids as [|id ids IH]; intros err w;
    cbn [handleInstanceIDs List.filter].
  - reflexivity.
  - unfold matched at 1. destruct (ncm !! id) as [nodeClaim|]; [|apply IH].
    run. rewrite List.filter_app, handleNodeClaim_counts_action. cbn [app length repeat].
    f_equal. destruct (result_of (handleNodeClaim _ _ _ _)); apply IH.
Qed.

(** Every effect of the loop over the instance ids is an effect of
    [handleNodeClaim] for a matched id. *)
Lemma handleInstanceIDs_In (ncm : gmap string NodeClaim) (nm : gmap string Node)
    (msg : Message) (ids : list string) (err : option error) (w : World) (e : Effect) :
  In e (trace_of (handleInstanceIDs ncm nm msg ids err w)) ->
  exists id nodeClaim w',
    In id ids /\ ncm !! id = Some nodeClaim /\
    In e (trace_of (handleNodeClaim msg nodeClaim (nm !! id) w')).
Proof.
  revert err w. induction ids as [|id ids IH]; intros err w; cbn [handleInstanceIDs].
  - intros [].
  - destruct (ncm !! id) as [nodeClaim|] eqn:Hl.
    + run. intros Hin. apply in_app_or in Hin. destruct Hin as [Hin | Hin].
      * exists id, nodeClaim, w. split; [left; reflexivity|]. auto.
      * assert (H : exists id' nodeClaim' w',
                   In id' ids /\ ncm !! id' = Some nodeClaim' /\
                   In e (trace_of (handleNodeClaim msg nodeClaim' (nm !! id') w'))).
        { destruct (result_of (handleNodeClaim _ _ _ _)); eapply IH; exact Hin. }
        destruct H as (id' & nc' & w' & Hi & Hm & He).
        exists id', nc', w'. split; [right; exact Hi|]. auto.
    + intros Hin. destruct (IH _ _ Hin) as (id' & nc' & w' & Hi & Hm & He).
      exists id', nc', w'. split; [right; exact Hi|]. auto.
Qed.

Lemma handleNodeClaim_error (msg : Message) (nodeClaim : NodeClaim) (node : option Node)
    (w : World) (e : error) :
  result_of (handleNodeClaim msg nodeClaim node w) = Some e ->
  exists cause,
    In (KubeDelete nodeClaim (Some cause)) (trace_of (handleNodeClaim msg nodeClaim node w)) /\
    IsNotFound cause = false.
Proof.
  destruct (handleNodeClaim_shape msg nodeClaim node w) as (pre & w1 & _ & _ & ->).
  destruct (actionForMessage msg); cbn [result_of trace_of fst snd]; [|discriminate].
  intros He. destruct (deleteNodeClaim_error _ _ _ _ He) as (cause & Hin & Hn & _).
  exists cause. split; [apply in_or_app; right; exact Hin | exact Hn].
Qed.

Lemma handleInstanceIDs_error (ncm : gmap string NodeClaim) (nm : gmap string Node)
    (msg : Message) (ids : list string) (w : World) (e : error) :
  result_of (handleInstanceIDs ncm nm msg ids None w) = Some e ->
  exists nc cause,
    In (KubeDelete nc (Some cause)) (trace_of (handleInstanceIDs ncm nm msg ids None w)) /\
    IsNotFound cause = false.
Proof.
  revert w. induction ids as [|id ids IH]; intros w; cbn [handleInstanceIDs].
  - discriminate.
  - destruct (ncm !! id) as [nodeClaim|]; [|apply IH].
    run. destruct (result_of (handleNodeClaim msg nodeClaim (nm !! id) w)) as [e'|] eqn:Hr.
    + intros _. destruct (handleNodeClaim_error _ _ _ _ _ Hr) as (cause & Hin & Hn).
      exists nodeClaim, cause. split; [apply in_or_app; left; exact Hin | exact Hn].
    + intros He. destruct (IH _ He) as (nc & cause & Hin & Hn).
      exists nc, cause. split; [apply in_or_app; right; exact Hin | exact Hn].
Qed.

Lemma handleMessage_In (ncm : gmap string NodeClaim) (nm : gmap string Node)
    (msg : Message) (w : World) (e : Effect) :
  In e (trace_of (handleMessage ncm nm msg w)) ->
  isRemediation e = true ->
  msgKind msg <> NoOpKind /\
  In e (trace_of (handleInstanceIDs ncm nm msg (msgEC2InstanceIDs msg) None w)).
Proof.
  destruct (Kind_eqb (msgKind msg) NoOpKind) eqn:Hk.
  - assert (K : msgKind msg = NoOpKind) by (destruct (msgKind msg); try discriminate; auto).
    rewrite (handleMessage_noop ncm nm msg w K). intros [<- | []]. discriminate.
  - assert (K : msgKind msg <> NoOpKind) by (intros K; rewrite K in Hk; discriminate).
    rewrite (handleMessage_other ncm nm msg w K). cbn [trace_of snd].
    intros [<- | Hin]; [discriminate|]. intros Hrem.
    apply in_app_or in Hin. destruct Hin as [Hin | [<- | []]]; [auto | discriminate].
Qed.

Lemma handleMessage_In_executor (ncm : gmap string NodeClaim) (nm : gmap string Node)
    (msg : Message) (w : World) (e : Effect) :
  In e (trace_of (handleMessage ncm nm msg w)) ->
  isRemediation e = true ->
  exists id nodeClaim w',
    In id (msgEC2InstanceIDs msg) /\ ncm !! id = Some nodeClaim /\
    In e (trace_of (handleNodeClaim msg nodeClaim (nm !! id) w')).
Proof.
  intros Hin Hrem.
  destruct (handleMessage_In ncm nm msg w e Hin Hrem) as [_ Hi].
  eapply handleInstanceIDs_In. exact Hi.
Qed.

Lemma handleMessage_error_wrapped (ncm : gmap string NodeClaim) (nm : gmap string Node)
    (msg : Message) (w : World) (e : error) :
  result_of (handleMessage ncm nm msg w) = Some e ->
  exists aggregate, e = ErrWrap "acting on NodeClaims, " aggregate.
Proof.
  destruct (Kind_eqb (msgKind msg) NoOpKind) eqn:Hk.
  - assert (K : msgKind msg = NoOpKind) by (destruct (msgKind msg); try discriminate; auto).
    rewrite (handleMessage_noop ncm nm msg w K). discriminate.
  - assert (K : msgKind msg <> NoOpKind) by (intros K; rewrite K in Hk; discriminate).
    rewrite (handleMessage_other ncm nm msg w K). cbn [result_of fst].
    destruct (result_of (handleInstanceIDs _ _ _ _ _ _)) as [agg|]; [|discriminate].
    intros [= <-]. exists agg. reflexivity.
Qed.

(** X9: for every kind but NoOpKind, [handleMessage] runs the executor
    exactly once for every instance id of the message that is a key of the
    NodeClaim index, repetitions included, and skips the others: an error on
    one id does not stop the handling of the ids after it. A NoOpKind
    message runs it for none. *)
Theorem handleMessage_handles_each_match_once (ncm : gmap string NodeClaim)
    (nm : gmap string Node) (msg : Message) (w : World) :
  List.filter isActionsPerformedInc (trace_of (handleMessage ncm nm msg w)) =
    if Kind_eqb (msgKind msg) NoOpKind then []
    else repeat (ActionsPerformedInc (actionForMessage msg))
                (length (List.filter (matched ncm) (msgEC2InstanceIDs msg))).
Proof.
  destruct (Kind_eqb (msgKind msg) NoOpKind) eqn:Hk.
  - assert (K : msgKind msg = NoOpKind) by (destruct (msgKind msg); try discriminate; auto).
    rewrite (handleMessage_noop ncm nm msg w K). reflexivity.
  - assert (K : msgKind msg <> NoOpKind) by (intros K; rewrite K in Hk; discriminate).
    rewrite (handleMessage_other ncm nm msg w K). cbn [trace_of snd List.filter].
    cbn [isActionsPerformedInc]. rewrite List.filter_app, handleInstanceIDs_counts.
    cbn. apply app_nil_r.
Qed.

(** X10: [handleMessage] only deletes NodeClaims that the index holds under
    an instance id of the message, and then only for a CordonAndDrain kind
    and a claim whose deletion marker is not set; it only creates the
    replacement of such an indexed claim, and only for a SpotInterruption
    message. *)
Theorem handleMessage_touches_only_matched (ncm : gmap string NodeClaim)
    (nm : gmap string Node) (msg : Message) (w : World) :
  (forall nc answer,
     In (KubeDelete nc answer) (trace_of (handleMessage ncm nm msg w)) ->
     (exists id, In id (msgEC2InstanceIDs msg) /\ ncm !! id = Some nc) /\
     actionForMessage msg = CordonAndDrain /\
     Time_IsZero (ncDeletionTimestamp nc) = true) /\
  (forall nc answer,
     In (KubeCreate nc answer) (trace_of (handleMessage ncm nm msg w)) ->
     (exists id old, In id (msgEC2InstanceIDs msg) /\ ncm !! id = Some old /\
                     nc = newNodeClaim old) /\
     msgKind msg = SpotInterruptionKind).
Proof.
  split; intros nc answer Hin.
  - destruct (handleMessage_In_executor ncm nm msg w _ Hin eq_refl)
      as (id & nodeClaim & w' & Hid & Hm & He).
    destruct (handleNodeClaim_In_delete msg nodeClaim (nm !! id) w' _ _ He) as (-> & Ha & Hz).
    split; [exists id; auto | auto].
  - destruct (handleMessage_In_executor ncm nm msg w _ Hin eq_refl)
      as (id & nodeClaim & w' & Hid & Hm & He).
    destruct (handleNodeClaim_In_create msg nodeClaim (nm !! id) w' _ _ He) as (K & ->).
    split; [exists id, nodeClaim; auto | exact K].
Qed.

(** X11: [handleMessage] returns an error exactly when one of its Delete
    calls answered an error other than NotFound; the error it returns is
    then the aggregate of the executor errors wrapped with "acting on
    NodeClaims". A failing Create or a NotFound Delete never makes it
    fail. *)
Theorem handleMessage_fails_iff_delete_failed (ncm : gmap string NodeClaim)
    (nm : gmap string Node) (msg : Message) (w : World) :
  (result_of (handleMessage ncm nm msg w) <> None <->
     exists nc cause,
       In (KubeDelete nc (Some cause)) (trace_of (handleMessage ncm nm msg w)) /\
       IsNotFound cause = false) /\
  (forall e, result_of (handleMessage ncm nm msg w) = Some e ->
     exists aggregate, e = ErrWrap "acting on NodeClaims, " aggregate).
Proof.
  split.
  - split.
    + destruct (Kind_eqb (msgKind msg) NoOpKind) eqn:Hk.
      * assert (K : msgKind msg = NoOpKind)
          by (destruct (msgKind msg); try discriminate; auto).
        rewrite (handleMessage_noop ncm nm msg w K). cbn. congruence.
      * assert (K : msgKind msg <> NoOpKind) by (intros K; rewrite K in Hk; discriminate).
        rewrite (handleMessage_other ncm nm msg w K). cbn [result_of trace_of fst snd].
        destruct (result_of (handleInstanceIDs _ _ _ _ _ _)) as [e|] eqn:Hr; [|congruence].
        intros _. destruct (handleInstanceIDs_error _ _ _ _ _ _ Hr) as (nc & cause & Hin & Hn).
        exists nc, cause. split; [|exact Hn].
        right. apply in_or_app. left. exact Hin.
    + intros (nc & cause & Hin & Hn). eapply handleMessage_delete_failed; eauto.
  - intros e He. eapply handleMessage_error_wrapped. exact He.
Qed.


Lemma deleteNodeClaim_In_publish (nodeClaim : NodeClaim) (node : option Node) (w : World)
    (ev : EventKind) (n : option Node) (nc : NodeClaim) :
  In (Publish ev n nc) (trace_of (deleteNodeClaim nodeClaim node w)) ->
  ev = TerminatingOnInterruption /\ n = node /\ nc = nodeClaim.
Proof.
  destruct (Time_IsZero (ncDeletionTimestamp nodeClaim)) eqn:Hz.
  - rewrite (deleteNodeClaim_unmarked _ _ _ Hz).
    destruct (Delete (kubeClient c) nodeClaim w) as [[err|] w']; cbn [trace_of snd].
    + intros [H | []]. discriminate.
    + intros [H | [H | [[= <- <- <-] | [H | []]]]]; try discriminate. auto.
  - rewrite (deleteNodeClaim_marked _ _ _ Hz). intros [].
Qed.

Lemma handleNodeClaim_In_publish (msg : Message) (nodeClaim : NodeClaim)
    (node : option Node) (w : World) (ev : EventKind) (n : option Node) (nc : NodeClaim) :
  In (Publish ev n nc) (trace_of (handleNodeClaim msg nodeClaim node w)) ->
  n = node /\ nc = nodeClaim.
Proof.
  destruct (Kind_eqb (msgKind msg) SpotInterruptionKind) eqn:Hk.
  - assert (K : msgKind msg = SpotInterruptionKind)
      by (destruct (msgKind msg); try discriminate; reflexivity).
    rewrite (handleNodeClaim_spot msg nodeClaim node w K). cbn zeta. cbn [trace_of snd app].
    intros [[= _ <- <-] | [H | Hin]]; [auto | discriminate |].
    apply in_app_or in Hin. destruct Hin as [Hin | Hin].
    { destruct (negb _ && negb _); [destruct Hin as [H | []]; discriminate | destruct Hin]. }
    destruct Hin as [H | Hin]; [discriminate|].
    apply in_app_or in Hin. destruct Hin as [Hin | Hin].
    { destruct (fst (Create _ _ _)); [destruct Hin as [H | []]; discriminate | destruct Hin]. }
    destruct (deleteNodeClaim_In_publish _ _ _ _ _ _ Hin) as (_ & -> & ->). auto.
  - assert (K : msgKind msg <> SpotInterruptionKind)
      by (intros K; rewrite K in Hk; discriminate).
    rewrite (handleNodeClaim_not_spot msg nodeClaim node w K).
    assert (Hn : In (Publish ev n nc) (trace_of (notifyForMessage msg nodeClaim node w)) ->
                 n = node /\ nc = nodeClaim).
    { destruct (notifyForMessage_run msg nodeClaim node w) as (_ & _ & [Ht | (ev' & _ & Ht)]);
        rewrite Ht; [intros [] | intros [[= _ <- <-] | []]; auto]. }
    destruct (actionForMessage msg); cbn [trace_of snd]; intros Hin;
      apply in_app_or in Hin; destruct Hin as [Hin | Hin]; auto.
    + destruct Hin as [H | Hin]; [discriminate|].
      destruct (deleteNodeClaim_In_publish _ _ _ _ _ _ Hin) as (_ & -> & ->). auto.
    + destruct Hin as [H | []]. discriminate.
Qed.

(** X19: every event that [handleMessage] publishes is about a NodeClaim
    that the index holds under an instance id of the message, together with
    the Node that the Node index holds under that same instance id (no Node
    when it holds none): claim and node are correlated by instance id
    only. *)
Theorem handleMessage_events_correlated (ncm : gmap string NodeClaim)
    (nm : gmap string Node) (msg : Message) (w : World)
    (ev : EventKind) (n : option Node) (nc : NodeClaim) :
  In (Publish ev n nc) (trace_of (handleMessage ncm nm msg w)) ->
  msgKind msg <> NoOpKind /\
  exists id,
    In id (msgEC2InstanceIDs msg) /\ ncm !! id = Some nc /\ n = nm !! id.
Proof.
  intros Hin.
  destruct (handleMessage_In ncm nm msg w _ Hin eq_refl) as [K _].
  destruct (handleMessage_In_executor ncm nm msg w _ Hin eq_refl)
    as (id & nodeClaim & w' & Hid & Hm & He).
  destruct (handleNodeClaim_In_publish _ _ _ _ _ _ _ He) as [-> ->].
  split; [exact K|]. exists id. auto.
Qed.

(** ** More of the controller: the pieces and the cycle *)

(** What a piece leaves behind: either the remediation failed and the queue
    is not touched, or one delete call is made and the deletion is counted
    when it succeeds. *)
Lemma processMessage_outcome (ncm : gmap string NodeClaim) (nm : gmap string Node)
    (raw : option SQSMessage) (w : World) :
  let piece := processMessage ncm nm raw w in
  (exists msg e,
     parseMessage raw = Ok msg /\
     result_of piece = Some (ErrWrap "handling message, " (ErrWrap "acting on NodeClaims, " e)) /\
     List.filter isQueueDelete (trace_of piece) = [] /\
     List.filter isDeletedMessagesInc (trace_of piece) = []) \/
  (exists answer,
     result_of piece =
       match answer with
       | None => None
       | Some cause => Some (ErrWrap "deleting sqs message, " cause)
       end /\
     List.filter isQueueDelete (trace_of piece) = [QueueDelete raw answer] /\
     List.filter isDeletedMessagesInc (trace_of piece) =
       match answer with None => [DeletedMessagesInc] | Some _ => [] end).
Proof.
  cbn zeta. destruct (parseMessage raw) as [msg|e] eqn:P.
  - destruct (handleMessage_no_queue ncm nm msg w) as [Hq Hd].
    destruct (result_of (handleMessage ncm nm msg w)) as [e|] eqn:Hr.
    + left. destruct (handleMessage_error_wrapped ncm nm msg w e Hr) as [agg ->].
      rewrite (processMessage_failed ncm nm raw msg w _ P Hr). cbn [result_of trace_of fst snd].
      exists msg, agg. auto.
    + right. rewrite (processMessage_handled ncm nm raw msg w P Hr). cbn zeta.
      cbn [result_of trace_of fst snd]. rewrite !List.filter_app, Hq, Hd, deleteMessage_run.
      exists (fst (DeleteSQSMessage (sqsProvider c) raw (world_of (handleMessage ncm nm msg w)))).
      destruct (DeleteSQSMessage (sqsProvider c) raw _) as [[cause|] w']; repeat split.
  - right. rewrite (processMessage_unparsed ncm nm raw e w P), deleteMessage_run.
    exists (fst (DeleteSQSMessage (sqsProvider c) raw w)).
    destruct (DeleteSQSMessage (sqsProvider c) raw w) as [[cause|] w']; repeat split.
Qed.

(** X13: a piece makes at most one delete call on the queue and counts at
    most one deletion, and the value it stores is nil exactly when it
    counted the deletion of its message: every message is either deleted
    or reported by an error, never both and never neither. *)
Theorem processMessage_nil_iff_deleted (ncm : gmap string NodeClaim) (nm : gmap string Node)
    (raw : option SQSMessage) (w : World) :
  let piece := processMessage ncm nm raw w in
  (result_of piece = None <-> In DeletedMessagesInc (trace_of piece)) /\
  length (List.filter isQueueDelete (trace_of piece)) <= 1 /\
  length (List.filter isDeletedMessagesInc (trace_of piece)) <= 1 /\
  (forall m answer, In (QueueDelete m answer) (trace_of piece) -> m = raw).
Proof.
  cbn zeta.
  assert (Hin : In DeletedMessagesInc (trace_of (processMessage ncm nm raw w)) <->
                List.filter isDeletedMessagesInc (trace_of (processMessage ncm nm raw w)) <> []).
  { split.
    - intros H Hnil. pose proof (In_filter_nil _ _ _ Hnil H) as Hf. discriminate.
    - intros H. destruct (List.filter _ _) as [|x l] eqn:E; [contradiction|].
      assert (Hx : In x (x :: l)) by (left; reflexivity).
      rewrite <- E in Hx. apply filter_In in Hx. destruct Hx as [Hx Hp].
      destruct x; try discriminate. exact Hx. }
  assert (Hq : forall m answer,
             In (QueueDelete m answer) (trace_of (processMessage ncm nm raw w)) ->
             In (QueueDelete m answer)
                (List.filter isQueueDelete (trace_of (processMessage ncm nm raw w))))
    by (intros; apply filter_In; auto).
  destruct (processMessage_outcome ncm nm raw w)
    as [(msg & e & _ & Hr & Hfq & Hfd) | (answer & Hr & Hfq & Hfd)]; cbn zeta in *.
  - rewrite Hin, Hr, Hfq, Hfd. cbn. repeat split; try lia; try congruence.
    intros m answer H. apply Hq in H. rewrite Hfq in H. destruct H.
  - rewrite Hin, Hr, Hfq, Hfd.
    destruct answer as [cause|]; cbn; repeat split; try lia; try congruence;
      intros m a H; apply Hq in H; rewrite Hfq in H; destruct H as [[= <- _] | []];
      reflexivity.
Qed.

Lemma nonNil_repeat_None (n : nat) : nonNil (repeat None n) = [].
Proof. induction n as [|n IH]; [reflexivity | exact IH]. Qed.

Lemma ParallelizeUntil_counts (ncm : gmap string NodeClaim) (nm : gmap string Node)
    (batch : list (option SQSMessage)) (w : World) :
  let pieces := ParallelizeUntil ncm nm batch w in
  length (result_of pieces) = length batch /\
  length (List.filter isDeletedMessagesInc (trace_of pieces)) +
    length (nonNil (result_of pieces)) <= length batch /\
  length (List.filter isQueueDelete (trace_of pieces)) <= length batch /\
  Forall (fun e => (exists h, e = ErrWrap "handling message, "
                                    (ErrWrap "acting on NodeClaims, " h)) \/
                   (exists cause, e = ErrWrap "deleting sqs message, " cause))
         (nonNil (result_of pieces)) /\
  (piecesRun ncm nm batch w = true ->
   length (List.filter isDeletedMessagesInc (trace_of pieces)) +
     length (nonNil (result_of pieces)) = length batch).
Proof.
  cbn zeta. revert w.
  induction batch as [|raw batch IH]; intros w; cbn [ParallelizeUntil piecesRun].
  - cbn. repeat split; auto.
  - run. destruct (ctxDone w) eqn:Hdone.
    + cbn [ret result_of trace_of fst snd negb andb List.filter length].
      rewrite repeat_length, nonNil_repeat_None. cbn [length].
      repeat split; try lia; auto; discriminate.
    + run. rewrite app_nil_r, !List.filter_app, !length_app. cbn [length negb andb].
      destruct (IH (world_of (processMessage ncm nm raw w))) as (H1 & H2 & H3 & H4 & H5).
      destruct (processMessage_outcome ncm nm raw w)
        as [(msg & e & _ & Hr & Hfq & Hfd) | (answer & Hr & Hfq & Hfd)]; cbn zeta in *;
        rewrite Hr, Hfq, Hfd.
      * cbn [nonNil length]. repeat split; try lia.
        -- constructor; [left; eexists; reflexivity | exact H4].
        -- intros Hrun. specialize (H5 Hrun). lia.
      * destruct answer as [cause|]; cbn [nonNil length]; repeat split; try lia; auto.
        -- constructor; [right; eexists; reflexivity | exact H4].
        -- intros Hrun. specialize (H5 Hrun). lia.
        -- intros Hrun. specialize (H5 Hrun). lia.
Qed.

(** When the context is done as the fan-out begins, no piece runs. *)
Lemma ParallelizeUntil_cancelled (ncm : gmap string NodeClaim) (nm : gmap string Node)
    (batch : list (option SQSMessage)) (w : World) :
  ctxDone w = true ->
  ParallelizeUntil ncm nm batch w = (repeat None (length batch), w, []).
Proof.
  intros Hdone. destruct batch as [|raw batch]; cbn [ParallelizeUntil]; [reflexivity|].
  run. rewrite Hdone. reflexivity.
Qed.

Lemma ParallelizeUntil_In (ncm : gmap string NodeClaim) (nm : gmap string Node)
    (batch : list (option SQSMessage)) (w : World) (e : Effect) :
  In e (trace_of (ParallelizeUntil ncm nm batch w)) ->
  exists raw w', In raw batch /\ In e (trace_of (processMessage ncm nm raw w')).
Proof.
  revert w. induction batch as [|raw batch IH]; intros w; cbn [ParallelizeUntil].
  - intros [].
  - run. destruct (ctxDone w); [intros []|].
    run. rewrite app_nil_r. intros Hin. apply in_app_or in Hin. destruct Hin as [Hin | Hin].
    + exists raw, w. split; [left; reflexivity | exact Hin].
    + destruct (IH _ Hin) as (raw' & w' & Hb & He).
      exists raw', w'. split; [right; exact Hb | exact He].
Qed.

Lemma processMessage_In_remediation (ncm : gmap string NodeClaim) (nm : gmap string Node)
    (raw : option SQSMessage) (w : World) (e : Effect) :
  In e (trace_of (processMessage ncm nm raw w)) ->
  isRemediation e = true ->
  exists msg, parseMessage raw = Ok msg /\ In e (trace_of (handleMessage ncm nm msg w)).
Proof.
  assert (Hdel : forall w', In e (trace_of (deleteMessage raw w')) -> isRemediation e = false).
  { intros w'. rewrite deleteMessage_run.
    destruct (DeleteSQSMessage (sqsProvider c) raw w') as [[cause|] w'']; cbn [trace_of snd].
    - intros [<- | []]. reflexivity.
    - intros [<- | [<- | []]]; reflexivity. }
  destruct (parseMessage raw) as [msg|err] eqn:P.
  - destruct (result_of (handleMessage ncm nm msg w)) as [e'|] eqn:Hr.
    + rewrite (processMessage_failed ncm nm raw msg w _ P Hr). cbn [trace_of snd].
      intros Hin _. exists msg. auto.
    + rewrite (processMessage_handled ncm nm raw msg w P Hr). cbn zeta. cbn [trace_of snd].
      intros Hin Hrem. apply in_app_or in Hin. destruct Hin as [Hin | Hin].
      * exists msg. auto.
      * rewrite (Hdel _ Hin) in Hrem. discriminate.
  - rewrite (processMessage_unparsed ncm nm raw err w P). cbn [trace_of snd].
    intros [<- | Hin] Hrem; [discriminate|].
    rewrite (Hdel _ Hin) in Hrem. discriminate.
Qed.

Lemma multierr_Errors_Combine (errs : list (option error)) :
  Forall (fun e => flatten e = [e]) (nonNil errs) ->
  multierr_Errors (multierr_Combine errs) = nonNil errs.
Proof.
  intros Hall. unfold multierr_Combine.
  assert (Hc : forall l, Forall (fun e => flatten e = [e]) l -> concat (map flatten l) = l).
  { induction l as [|x l IH]; intros Hl; [reflexivity|].
    inversion Hl as [|? ? Hx Hl']; subst. cbn. rewrite Hx, (IH Hl'). reflexivity. }
  destruct (nonNil errs) as [|x [|y l]] eqn:E.
  - reflexivity.
  - inversion Hall as [|? ? Hx _]; subst. cbn. exact Hx.
  - cbn [multierr_Errors flatten]. apply Hc. exact Hall.
Qed.

Lemma Reconcile_batch (w0 : World) (batch : list (option SQSMessage))
    (claims : list NodeClaim) (nodes : list Node) (w : World) :
  startsBatch w0 batch claims nodes w ->
  let pieces := ParallelizeUntil (indexNodeClaims claims ∅) (indexNodes nodes ∅) batch w in
  exists debug,
    (debug = [] \/ debug = [LogDebug "watching interruption queue"]) /\
    Reconcile w0 =
      (multierr_Combine (result_of pieces), world_of pieces, debug ++ trace_of pieces).
Proof.
  intros (changed & w1 & w2 & w3 & Hc & Hg & Hne & Hl1 & Hl2). cbn zeta.
  assert (Hlen : Nat.eqb (length batch) 0 = false)
    by (destruct batch; [congruence | reflexivity]).
  unfold Reconcile, makeNodeClaimInstanceIDMap, makeNodeInstanceIDMap. run.
  rewrite Hc. cbn [fst snd].
  exists (trace_of ((if changed then emit (LogDebug "watching interruption queue")
                     else ret tt) w1)).
  split; [destruct changed; auto|].
  assert (Hu : world_of ((if changed then emit (LogDebug "watching interruption queue")
                          else ret tt) w1) = w1) by (destruct changed; reflexivity).
  rewrite Hu, Hg. cbn [fst snd]. rewrite Hlen. run. rewrite Hl1. cbn [fst snd]. run.
  rewrite Hl2. cbn [fst snd]. run. rewrite !app_nil_r. reflexivity.
Qed.

(** X14: an empty batch ends the cycle at once and successfully: the
    cluster is not listed, no collaborator is called after the receive call
    and the only possible effect is the debug line before it. *)
Theorem Reconcile_empty_batch (w0 : World) :
  let changed := HasChanged (cm c) (Name (sqsProvider c)) w0 in
  let got := GetSQSMessages (sqsProvider c) (snd changed) in
  fst got = Ok [] ->
  result_of (Reconcile w0) = None /\
  world_of (Reconcile w0) = snd got /\
  trace_of (Reconcile w0) =
    (if fst changed then [LogDebug "watching interruption queue"] else []).
Proof.
  cbn zeta. intros Hg. unfold Reconcile. run.
  destruct (HasChanged (cm c) (Name (sqsProvider c)) w0) as [changed w1]. cbn [fst snd] in *.
  assert (Hu : world_of ((if changed then emit (LogDebug "watching interruption queue")
                          else ret tt) w1) = w1) by (destruct changed; reflexivity).
  rewrite Hu.
  destruct (GetSQSMessages (sqsProvider c) w1) as [got w2]. cbn [fst snd] in *. subst got.
  cbn. rewrite app_nil_r. destruct changed; repeat split.
Qed.

(** X15: when the receive call fails, the cycle returns that error wrapped
    with "getting messages from queue", lists nothing and handles
    nothing. *)
Theorem Reconcile_receive_failure (w0 : World) (e : error) :
  let changed := HasChanged (cm c) (Name (sqsProvider c)) w0 in
  let got := GetSQSMessages (sqsProvider c) (snd changed) in
  fst got = Err e ->
  result_of (Reconcile w0) = Some (ErrWrap "getting messages from queue, " e) /\
  world_of (Reconcile w0) = snd got /\
  trace_of (Reconcile w0) =
    (if fst changed then [LogDebug "watching interruption queue"] else []).
Proof.
  cbn zeta. intros Hg. unfold Reconcile. run.
  destruct (HasChanged (cm c) (Name (sqsProvider c)) w0) as [changed w1]. cbn [fst snd] in *.
  assert (Hu : world_of ((if changed then emit (LogDebug "watching interruption queue")
                          else ret tt) w1) = w1) by (destruct changed; reflexivity).
  rewrite Hu.
  destruct (GetSQSMessages (sqsProvider c) w1) as [got w2]. cbn [fst snd] in *. subst got.
  cbn. rewrite app_nil_r. destruct changed; repeat split.
Qed.

(** X16: in a cycle that reaches the fan-out, no message of the batch is
    accounted for twice: the number of counted deletions plus the number of
    errors of the returned aggregate is at most the size of the batch, and
    so is the number of delete calls on the queue. When every piece is
    started (the context is not done when a worker comes to a piece) the sum
    is exactly the size of the batch, and the cycle returns nil exactly when
    every message was deleted. When the context is already done as the
    fan-out begins, no piece runs: the cycle returns nil although nothing
    was deleted. *)
Theorem Reconcile_accounts_for_batch (w0 : World) (batch : list (option SQSMessage))
    (claims : list NodeClaim) (nodes : list Node) (w : World) :
  startsBatch w0 batch claims nodes w ->
  let deleted := length (List.filter isDeletedMessagesInc (trace_of (Reconcile w0))) in
  let errors := length (multierr_Errors (result_of (Reconcile w0))) in
  deleted + errors <= length batch /\
  length (List.filter isQueueDelete (trace_of (Reconcile w0))) <= length batch /\
  (piecesRun (indexNodeClaims claims ∅) (indexNodes nodes ∅) batch w = true ->
     deleted + errors = length batch /\
     (result_of (Reconcile w0) = None <-> deleted = length batch)) /\
  (ctxDone w = true ->
     result_of (Reconcile w0) = None /\ deleted = 0 /\
     List.filter isQueueDelete (trace_of (Reconcile w0)) = []).
Proof.
  intros Hs. cbn zeta.
  destruct (Reconcile_batch w0 batch claims nodes w Hs) as (debug & Hd & ->). cbn zeta.
  cbn [result_of trace_of fst snd].
  assert (Hd1 : List.filter isDeletedMessagesInc debug = [])
    by (destruct Hd as [-> | ->]; reflexivity).
  assert (Hd2 : List.filter isQueueDelete debug = [])
    by (destruct Hd as [-> | ->]; reflexivity).
  rewrite !List.filter_app, Hd1, Hd2. cbn [app].
  set (pieces := ParallelizeUntil (indexNodeClaims claims ∅) (indexNodes nodes ∅) batch w).
  destruct (ParallelizeUntil_counts (indexNodeClaims claims ∅) (indexNodes nodes ∅) batch w)
    as (_ & Hsum & Hq & Hk & Hrun). cbn zeta in *. fold pieces in Hsum, Hq, Hk, Hrun.
  assert (Hflat : Forall (fun e => flatten e = [e]) (nonNil (result_of pieces))).
  { eapply List.Forall_impl; [|exact Hk]. intros e [[h ->] | [cause ->]]; reflexivity. }
  rewrite (multierr_Errors_Combine _ Hflat).
  split; [exact Hsum|]. split; [exact Hq|]. split.
  - intros Hall. specialize (Hrun Hall). split; [exact Hrun|].
    unfold multierr_Combine.
    destruct (nonNil (result_of pieces)) as [|x [|y l]]; cbn [length] in *; split;
      intros H; try reflexivity; try discriminate; lia.
  - intros Hdone. unfold pieces.
    rewrite (ParallelizeUntil_cancelled _ _ batch w Hdone).
    cbn [result_of trace_of fst snd List.filter length].
    unfold multierr_Combine. rewrite nonNil_repeat_None. repeat split.
Qed.

(** X17: the errors of the aggregate returned by a cycle that reaches the
    pieces are handling errors (a failed remediation) and queue delete
    errors only; a parse error is never one of them. *)
Theorem Reconcile_error_kinds (w0 : World) (batch : list (option SQSMessage))
    (claims : list NodeClaim) (nodes : list Node) (w : World) (e : error) :
  startsBatch w0 batch claims nodes w ->
  In e (multierr_Errors (result_of (Reconcile w0))) ->
  (exists h, e = ErrWrap "handling message, " (ErrWrap "acting on NodeClaims, " h)) \/
  (exists cause, e = ErrWrap "deleting sqs message, " cause).
Proof.
  intros Hs.
  destruct (Reconcile_batch w0 batch claims nodes w Hs) as (debug & _ & ->). cbn zeta.
  cbn [result_of fst].
  destruct (ParallelizeUntil_counts (indexNodeClaims claims ∅) (indexNodes nodes ∅) batch w)
    as (_ & _ & _ & Hk & _). cbn zeta in Hk.
  assert (Hflat : Forall (fun x => flatten x = [x])
                    (nonNil (result_of (ParallelizeUntil (indexNodeClaims claims ∅)
                                          (indexNodes nodes ∅) batch w)))).
  { eapply List.Forall_impl; [|exact Hk]. intros x [[h ->] | [cause ->]]; reflexivity. }
  rewrite (multierr_Errors_Combine _ Hflat). intros Hin.
  rewrite List.Forall_forall in Hk. apply Hk. exact Hin.
Qed.

(** X18: a cycle only deletes NodeClaims that the cluster listed in this
    very cycle, whose provider id parses to an instance id named by a
    parsed message of the batch with a CordonAndDrain kind, and whose
    deletion marker is not set; and it only creates replacements of listed
    claims named by a parsed SpotInterruption message. *)
Theorem Reconcile_touches_only_listed (w0 : World) (batch : list (option SQSMessage))
    (claims : list NodeClaim) (nodes : list Node) (w : World) :
  startsBatch w0 batch claims nodes w ->
  (forall nc answer,
     In (KubeDelete nc answer) (trace_of (Reconcile w0)) ->
     In nc claims /\
     Time_IsZero (ncDeletionTimestamp nc) = true /\
     exists raw msg id,
       In raw batch /\ parseMessage raw = Ok msg /\
       actionForMessage msg = CordonAndDrain /\
       In id (msgEC2InstanceIDs msg) /\
       ParseInstanceID (statusProviderID (ncStatus nc)) = Ok id) /\
  (forall nc answer,
     In (KubeCreate nc answer) (trace_of (Reconcile w0)) ->
     exists old raw msg id,
       nc = newNodeClaim old /\ In old claims /\
       In raw batch /\ parseMessage raw = Ok msg /\
       msgKind msg = SpotInterruptionKind /\
       In id (msgEC2InstanceIDs msg) /\
       ParseInstanceID (statusProviderID (ncStatus old)) = Ok id).
Proof.
  intros Hs.
  destruct (Reconcile_batch w0 batch claims nodes w Hs) as (debug & Hd & ->). cbn zeta.
  cbn [trace_of snd].
  assert (Hstep : forall e, isRemediation e = true ->
             In e (debug ++ trace_of (ParallelizeUntil (indexNodeClaims claims ∅)
                                        (indexNodes nodes ∅) batch w)) ->
             exists raw msg id nodeClaim w',
               In raw batch /\ parseMessage raw = Ok msg /\
               In id (msgEC2InstanceIDs msg) /\
               indexNodeClaims claims ∅ !! id = Some nodeClaim /\
               In e (trace_of (handleNodeClaim msg nodeClaim (indexNodes nodes ∅ !! id) w'))).
  { intros e Hrem Hin. apply in_app_or in Hin. destruct Hin as [Hin | Hin].
    { destruct Hd as [-> | ->]; [destruct Hin|].
      destruct Hin as [<- | []]. discriminate. }
    destruct (ParallelizeUntil_In _ _ _ _ _ Hin) as (raw & w1 & Hb & Hp).
    destruct (processMessage_In_remediation _ _ _ _ _ Hp Hrem) as (msg & P & Hm).
    destruct (handleMessage_In_executor _ _ _ _ _ Hm Hrem) as (id & nodeClaim & w' & Hi & Hl & He).
    exists raw, msg, id, nodeClaim, w'. auto. }
  split; intros nc answer Hin.
  - destruct (Hstep (KubeDelete nc answer) eq_refl Hin)
      as (raw & msg & id & nodeClaim & w' & Hb & P & Hi & Hl & He).
    destruct (handleNodeClaim_In_delete _ _ _ _ _ _ He) as (-> & Ha & Hz).
    destruct (indexNodeClaims_indexed _ _ _ Hl) as [Hc Hk].
    apply instanceIDOf_Some in Hk. destruct Hk as (_ & Hk & _).
    split; [exact Hc|]. split; [exact Hz|].
    exists raw, msg, id. auto.
  - destruct (Hstep (KubeCreate nc answer) eq_refl Hin)
      as (raw & msg & id & nodeClaim & w' & Hb & P & Hi & Hl & He).
    destruct (handleNodeClaim_In_create _ _ _ _ _ _ He) as (K & ->).
    destruct (indexNodeClaims_indexed _ _ _ Hl) as [Hc Hk].
    apply instanceIDOf_Some in Hk. destruct Hk as (_ & Hk & _).
    exists nodeClaim, raw, msg, id. repeat split; auto.
Qed.

(** ** Unparseable messages in the cycle *)

Lemma startsPiece_startsBatch (w0 : World) (pre : list (option SQSMessage))
    (raw : option SQSMessage) (post : list (option SQSMessage))
    (ncm : gmap string NodeClaim) (nm : gmap string Node) (w : World) :
  startsPiece w0 pre raw post ncm nm w ->
  exists claims nodes w4,
    startsBatch w0 (pre ++ raw :: post) claims nodes w4 /\
    ncm = indexNodeClaims claims ∅ /\ nm = indexNodes nodes ∅.
Proof.
  intros (changed & w1 & w2 & claims & w3 & nodes & w4 & Hc & Hg & Hl1 & Hl2 & -> & -> &
          _ & _).
  exists claims, nodes, w4. split; [|split; reflexivity].
  exists changed, w1, w2, w3. repeat split; auto.
  destruct pre; discriminate.
Qed.

Lemma parseMessage_error_shape (raw : option SQSMessage) (e : error) :
  parseMessage raw = Err e ->
  e = ErrLeaf None "message or message body is nil" \/
  exists err, e = ErrWrap "parsing sqs message, " err.
Proof.
  unfold parseMessage. destruct raw as [r|]; [|intros [= <-]; left; reflexivity].
  destruct (sqsBody r) as [body|]; [|intros [= <-]; left; reflexivity].
  destruct (Parse (parser c) body) as [msg|err]; [discriminate|].
  intros [= <-]. right. exists err. reflexivity.
Qed.

(** The errors of the aggregate of a cycle that reaches the fan-out. *)
Lemma Reconcile_aggregate_kinds (w0 : World) (batch : list (option SQSMessage))
    (claims : list NodeClaim) (nodes : list Node) (w : World) :
  startsBatch w0 batch claims nodes w ->
  Forall (fun e => (exists h, e = ErrWrap "handling message, "
                                    (ErrWrap "acting on NodeClaims, " h)) \/
                   (exists cause, e = ErrWrap "deleting sqs message, " cause))
         (multierr_Errors (result_of (Reconcile w0))).
Proof.
  intros Hs.
  destruct (Reconcile_batch w0 batch claims nodes w Hs) as (debug & _ & ->). cbn zeta.
  cbn [result_of fst].
  destruct (ParallelizeUntil_counts (indexNodeClaims claims ∅) (indexNodes nodes ∅) batch w)
    as (_ & _ & _ & Hk & _). cbn zeta in Hk.
  rewrite multierr_Errors_Combine; [exact Hk|].
  eapply List.Forall_impl; [|exact Hk]. intros x [[h ->] | [cause ->]]; reflexivity.
Qed.

Lemma ParallelizeUntil_unparsed (ncm : gmap string NodeClaim) (nm : gmap string Node)
    (batch : list (option SQSMessage)) (w : World) :
  (forall raw, In raw batch -> exists e, parseMessage raw = Err e) ->
  (forall raw w', fst (DeleteSQSMessage (sqsProvider c) raw w') = None) ->
  nonNil (result_of (ParallelizeUntil ncm nm batch w)) = [].
Proof.
  intros Hbad Hack. revert w.
  induction batch as [|raw batch IH]; intros w; cbn [ParallelizeUntil]; [reflexivity|].
  run. destruct (ctxDone w).
  - cbn [ret result_of fst]. apply nonNil_repeat_None.
  - run. destruct (Hbad raw (or_introl eq_refl)) as [e P].
    rewrite (processMessage_unparsed ncm nm raw e w P), deleteMessage_run.
    pose proof (Hack raw w) as Hw.
    destruct (DeleteSQSMessage (sqsProvider c) raw w) as [[err|] w']; cbn in Hw;
      [discriminate|].
    cbn [result_of world_of fst snd nonNil].
    apply IH. intros raw' Hin. apply Hbad. right. exact Hin.
Qed.

(** C4: a message of the batch that does not parse (a nil message and a
    message without body do not) has its parse error logged and its delete
    call made on the queue within the cycle: the effects of its piece, the
    delete call among them, are part of what [Reconcile] does. The value
    stored for the piece is the outcome of that delete call alone, and the
    parse error is not one of the errors of the aggregate that [Reconcile]
    returns; a batch in which nothing parses and every queue delete succeeds
    makes [Reconcile] return nil. *)
Theorem Reconcile_deletes_unparsed_message :
  (exists e, parseMessage None = Err e) /\
  (forall id handle, exists e, parseMessage (Some (mkSQSMessage id handle None)) = Err e) /\
  (forall w0 pre raw post ncm nm w e,
     startsPiece w0 pre raw post ncm nm w ->
     parseMessage raw = Err e ->
     let answer := fst (DeleteSQSMessage (sqsProvider c) raw w) in
     let piece := processMessage ncm nm raw w in
     trace_of piece =
       LogError "parsing message, " e :: QueueDelete raw answer ::
       match answer with None => [DeletedMessagesInc] | Some _ => [] end /\
     result_of piece =
       match answer with
       | None => None
       | Some err => Some (ErrWrap "deleting sqs message, " err)
       end /\
     (exists before after, trace_of (Reconcile w0) = before ++ trace_of piece ++ after) /\
     In (QueueDelete raw answer) (trace_of (Reconcile w0)) /\
     ~ In e (multierr_Errors (result_of (Reconcile w0)))) /\
  (forall w0 batch claims nodes w,
     startsBatch w0 batch claims nodes w ->
     (forall raw, In raw batch -> exists e, parseMessage raw = Err e) ->
     (forall raw w', fst (DeleteSQSMessage (sqsProvider c) raw w') = None) ->
     result_of (Reconcile w0) = None).
Proof.
  split; [eexists; reflexivity|].
  split; [intros; eexists; reflexivity|].
  split.
  - intros w0 pre raw post ncm nm w e Hs P. cbn zeta.
    destruct (Reconcile_run w0 pre raw post ncm nm w Hs)
      as (before & after & _ & _ & Ht & _).
    assert (Hp : processMessage ncm nm raw w =
                 (match fst (DeleteSQSMessage (sqsProvider c) raw w) with
                  | None => None
                  | Some err => Some (ErrWrap "deleting sqs message, " err)
                  end,
                  snd (DeleteSQSMessage (sqsProvider c) raw w),
                  LogError "parsing message, " e ::
                  QueueDelete raw (fst (DeleteSQSMessage (sqsProvider c) raw w)) ::
                  match fst (DeleteSQSMessage (sqsProvider c) raw w) with
                  | None => [DeletedMessagesInc]
                  | Some _ => []
                  end)).
    { rewrite (processMessage_unparsed ncm nm raw e w P), deleteMessage_run.
      destruct (DeleteSQSMessage (sqsProvider c) raw w) as [[err|] w']; reflexivity. }
    rewrite Hp in *. cbn [trace_of result_of fst snd] in *.
    split; [reflexivity|]. split; [reflexivity|].
    split; [exists before, after; exact Ht|]. split.
    + rewrite Ht. apply in_or_app. right. apply in_or_app. left. right. left. reflexivity.
    + intros Hin.
      destruct (startsPiece_startsBatch _ _ _ _ _ _ _ Hs) as (claims & nodes & w4 & Hb & _).
      pose proof (Reconcile_aggregate_kinds _ _ _ _ _ Hb) as Hk.
      rewrite List.Forall_forall in Hk. specialize (Hk e Hin).
      destruct (parseMessage_error_shape raw e P) as [-> | [err ->]];
        destruct Hk as [[h Hk] | [cause Hk]]; discriminate.
  - intros w0 batch claims nodes w Hs Hbad Hack.
    destruct (Reconcile_batch w0 batch claims nodes w Hs) as (debug & _ & ->). cbn zeta.
    cbn [result_of fst]. unfold multierr_Combine.
    rewrite (ParallelizeUntil_unparsed _ _ _ _ Hbad Hack). reflexivity.
Qed.

End Interruption.


(** ** The theorems on the concrete controller *)

Lemma handleNodeClaim_spot_interruption_witness :
  msgKind spotMessage = SpotInterruptionKind /\
  List.filter isMarkUnavailable
    (trace_of (handleNodeClaim "interruption"
                 (demoController (Ok []) (Ok []) (Some throttled) None (Ok []) None)
                 spotMessage (demoClaim None) None 0%nat)) =
    [MarkUnavailable SpotInterruptionKind "m5.large" "us-east-1a" "spot"].
Proof.
  split; [reflexivity|].
  pose proof (handleNodeClaim_spot_interruption "interruption"
                (demoController (Ok []) (Ok []) (Some throttled) None (Ok []) None)
                spotMessage (demoClaim None) None 0%nat eq_refl) as H.
  cbn zeta in H. destruct H as [H _]. apply H.
  split; vm_compute; discriminate.
Defined.

Lemma deleteNodeClaim_idempotent_witness :
  Time_IsZero (ncDeletionTimestamp (demoClaim (Some 42%Z))) = false /\
  deleteNodeClaim "interruption"
    (demoController (Ok []) (Ok []) None (Some internalError) (Ok []) None)
    (demoClaim (Some 42%Z)) None 0%nat = (None, 0%nat, []).
Proof.
  split; [reflexivity|].
  apply (proj1 (deleteNodeClaim_idempotent "interruption"
                  (demoController (Ok []) (Ok []) None (Some internalError) (Ok []) None)
                  (demoClaim (Some 42%Z)) None 0%nat)).
  reflexivity.
Defined.

Lemma handleNodeClaim_spot_already_deleting_witness :
  msgKind spotMessage = SpotInterruptionKind /\
  Time_IsZero (ncDeletionTimestamp (demoClaim (Some 42%Z))) = false /\
  result_of (handleNodeClaim "interruption"
               (demoController (Ok []) (Ok []) (Some throttled) (Some internalError) (Ok []) None)
               spotMessage (demoClaim (Some 42%Z)) None 0%nat) = None.
Proof.
  split; [reflexivity|]. split; [reflexivity|].
  pose proof (handleNodeClaim_spot_already_deleting "interruption"
                (demoController (Ok []) (Ok []) (Some throttled) (Some internalError) (Ok []) None)
                spotMessage (demoClaim (Some 42%Z)) None 0%nat eq_refl eq_refl) as H.
  cbn zeta in H. destruct H as [H _]. exact H.
Defined.

Lemma handleMessage_correlation_miss_witness :
  parseMessage (demoController (Ok []) (Ok []) None None (Ok []) None) (rawOf "spot")
    = Ok spotMessage /\
  (forall id, In id (msgEC2InstanceIDs spotMessage) ->
     (∅ : gmap string NodeClaim) !! id = None) /\
  List.filter isRemediation
    (trace_of (processMessage demoNow "interruption"
                 (demoController (Ok []) (Ok []) None None (Ok []) None)
                 ∅ ∅ (rawOf "spot") 0%nat)) = [].
Proof.
  split; [reflexivity|]. split; [intros id _; reflexivity|].
  pose proof (handleMessage_correlation_miss demoNow "interruption"
                (demoController (Ok []) (Ok []) None None (Ok []) None)
                ∅ ∅ (rawOf "spot") spotMessage 0%nat eq_refl
                (fun id _ => eq_refl)) as H.
  cbn zeta in H. destruct H as (_ & _ & _ & H & _). exact H.
Defined.



Lemma Reconcile_keeps_failed_message_witness :
  startsPiece demoParseInstanceID demoNow "interruption"
    (demoController (Ok [demoClaim None]) (Ok []) None (Some internalError)
       (Ok [rawOf "spot"]) None) demoCtxDone
    0%nat [] (rawOf "spot") []
    (indexNodeClaims demoParseInstanceID [demoClaim None] ∅)
    (indexNodes demoParseInstanceID [] ∅) 4%nat /\
  result_of (Reconcile demoParseInstanceID demoNow "interruption"
               (demoController (Ok [demoClaim None]) (Ok []) None (Some internalError)
                  (Ok [rawOf "spot"]) None) demoCtxDone 0%nat) <> None.
Proof.
  assert (Hs : startsPiece demoParseInstanceID demoNow "interruption"
                 (demoController (Ok [demoClaim None]) (Ok []) None (Some internalError)
                    (Ok [rawOf "spot"]) None) demoCtxDone
                 0%nat [] (rawOf "spot") []
                 (indexNodeClaims demoParseInstanceID [demoClaim None] ∅)
                 (indexNodes demoParseInstanceID [] ∅) 4%nat).
  { exists true, 1%nat, 2%nat, [demoClaim None], 3%nat, [], 4%nat. repeat split. }
  split; [exact Hs|].
  pose proof (proj1 (Reconcile_keeps_failed_message demoParseInstanceID demoNow
                       "interruption"
                       (demoController (Ok [demoClaim None]) (Ok []) None
                          (Some internalError) (Ok [rawOf "spot"]) None)
                       demoCtxDone)) as H.
  specialize (H _ _ _ _ _ _ _ spotMessage
                (ErrWrap "acting on NodeClaims, "
                   (ErrWrap "deleting the node on interruption message, " internalError))
                Hs eq_refl).
  cbn zeta in H. destruct H as (_ & _ & _ & _ & H); [vm_compute; reflexivity|]. exact H.
Defined.

Lemma Reconcile_unparsed_delete_failure_witness :
  startsPiece demoParseInstanceID demoNow "interruption"
    (demoController (Ok []) (Ok []) None None (Ok [rawOf "junk"]) (Some throttled))
    demoCtxDone
    0%nat [] (rawOf "junk") [] (indexNodeClaims demoParseInstanceID [] ∅)
    (indexNodes demoParseInstanceID [] ∅) 4%nat /\
  result_of (Reconcile demoParseInstanceID demoNow "interruption"
               (demoController (Ok []) (Ok []) None None (Ok [rawOf "junk"])
                  (Some throttled)) demoCtxDone 0%nat) <> None.
Proof.
  assert (Hs : startsPiece demoParseInstanceID demoNow "interruption"
                 (demoController (Ok []) (Ok []) None None (Ok [rawOf "junk"])
                    (Some throttled)) demoCtxDone
                 0%nat [] (rawOf "junk") [] (indexNodeClaims demoParseInstanceID [] ∅)
                 (indexNodes demoParseInstanceID [] ∅) 4%nat).
  { exists true, 1%nat, 2%nat, [], 3%nat, [], 4%nat. repeat split. }
  split; [exact Hs|].
  apply (Reconcile_unparsed_delete_failure demoParseInstanceID demoNow "interruption"
           _ _ _ _ _ _ _ _ _
           (ErrWrap "parsing sqs message, " (ErrLeaf None "unmarshalling the message"))
           throttled Hs eq_refl eq_refl).
Defined.

Lemma Reconcile_listing_failure_witness :
  Reconcile demoParseInstanceID demoNow "interruption"
    (demoController (Err internalError) (Ok []) None None (Ok [rawOf "spot"]) None)
    demoCtxDone 0%nat =
  (Some (ErrWrap "making nodeclaim instance id map, " internalError), 3%nat,
   [LogDebug "watching interruption queue"]).
Proof.
  pose proof (Reconcile_listing_failure demoParseInstanceID demoNow "interruption"
                (demoController (Err internalError) (Ok []) None None
                   (Ok [rawOf "spot"]) None) demoCtxDone 0%nat [rawOf "spot"]) as H.
  cbn zeta in H. specialize (H eq_refl).
  destruct H as [H _]; [discriminate|].
  destruct (H internalError eq_refl) as (Hr & Hw & _).
  rewrite (run_eta (Reconcile _ _ _ _ _ _)), Hr, Hw. reflexivity.
Defined.

(** ** The further theorems on the concrete controller *)

Lemma indexNodeClaims_sound_witness :
  indexNodeClaims demoParseInstanceID [demoClaim None] ∅ !! "i-123" = Some (demoClaim None) /\
  demoParseInstanceID (statusProviderID (ncStatus (demoClaim None))) = Ok "i-123".
Proof.
  assert (H : indexNodeClaims demoParseInstanceID [demoClaim None] ∅ !! "i-123"
              = Some (demoClaim None)) by (vm_compute; reflexivity).
  split; [exact H|].
  destruct (indexNodeClaims_sound demoParseInstanceID [demoClaim None] "i-123"
              (demoClaim None) H) as (_ & _ & Hp & _).
  exact Hp.
Defined.

Lemma indexNodeClaims_last_wins_witness :
  instanceIDOf demoParseInstanceID (statusProviderID (ncStatus (demoClaim (Some 42%Z))))
    = Some "i-123" /\
  indexNodeClaims demoParseInstanceID ([demoClaim None] ++ demoClaim (Some 42%Z) :: []) ∅
    !! "i-123" = Some (demoClaim (Some 42%Z)).
Proof.
  split; [reflexivity|].
  apply (indexNodeClaims_last_wins demoParseInstanceID [demoClaim None] []
           (demoClaim (Some 42%Z)) "i-123" eq_refl).
  intros x [].
Defined.

Lemma handleNodeClaim_no_action_witness :
  actionForMessage (mkMessage RebalanceRecommendationKind ["i-123"] 1000%Z "") = NoAction /\
  result_of (handleNodeClaim "interruption"
               (demoController (Ok []) (Ok []) (Some throttled) (Some internalError)
                  (Ok []) None)
               (mkMessage RebalanceRecommendationKind ["i-123"] 1000%Z "")
               (demoClaim None) None 0%nat) = None.
Proof.
  split; [reflexivity|].
  destruct (handleNodeClaim_no_action "interruption"
              (demoController (Ok []) (Ok []) (Some throttled) (Some internalError)
                 (Ok []) None)
              (mkMessage RebalanceRecommendationKind ["i-123"] 1000%Z "")
              (demoClaim None) None 0%nat eq_refl) as (H & _).
  exact H.
Defined.

Lemma handleNodeClaim_state_change_witness :
  msgKind (mkMessage StateChangeKind ["i-123"] 1000%Z "stopped") = StateChangeKind /\
  exists ev,
    ev = Stopping /\
    hd_error (trace_of (handleNodeClaim "interruption"
                          (demoController (Ok []) (Ok []) None None (Ok []) None)
                          (mkMessage StateChangeKind ["i-123"] 1000%Z "stopped")
                          (demoClaim None) None 0%nat))
      = Some (Publish ev None (demoClaim None)).
Proof.
  split; [reflexivity|].
  destruct (handleNodeClaim_state_change "interruption"
              (demoController (Ok []) (Ok []) None None (Ok []) None)
              (mkMessage StateChangeKind ["i-123"] 1000%Z "stopped")
              (demoClaim None) None 0%nat eq_refl) as (ev & Hs & _ & Hrun).
  exists ev. split; [apply Hs; right; reflexivity|].
  rewrite Hrun. reflexivity.
Defined.

Lemma Reconcile_empty_batch_witness :
  fst (GetSQSMessages (sqsProvider (demoController (Ok []) (Ok []) None None (Ok []) None))
         1%nat) = Ok [] /\
  Reconcile demoParseInstanceID demoNow "interruption"
    (demoController (Ok []) (Ok []) None None (Ok []) None) demoCtxDone 0%nat =
  (None, 2%nat, [LogDebug "watching interruption queue"]).
Proof.
  split; [reflexivity|].
  destruct (Reconcile_empty_batch demoParseInstanceID demoNow "interruption"
              (demoController (Ok []) (Ok []) None None (Ok []) None) demoCtxDone 0%nat eq_refl)
    as (Hr & Hw & Ht).
  rewrite (run_eta (Reconcile _ _ _ _ _ _)), Hr, Hw, Ht. reflexivity.
Defined.

Lemma Reconcile_receive_failure_witness :
  fst (GetSQSMessages
         (sqsProvider (demoController (Ok []) (Ok []) None None (Err throttled) None))
         1%nat) = Err throttled /\
  Reconcile demoParseInstanceID demoNow "interruption"
    (demoController (Ok []) (Ok []) None None (Err throttled) None) demoCtxDone 0%nat =
  (Some (ErrWrap "getting messages from queue, " throttled), 2%nat,
   [LogDebug "watching interruption queue"]).
Proof.
  split; [reflexivity|].
  destruct (Reconcile_receive_failure demoParseInstanceID demoNow "interruption"
              (demoController (Ok []) (Ok []) None None (Err throttled) None) demoCtxDone 0%nat
              throttled eq_refl)
    as (Hr & Hw & Ht).
  rewrite (run_eta (Reconcile _ _ _ _ _ _)), Hr, Hw, Ht. reflexivity.
Defined.

Lemma Reconcile_accounts_for_batch_witness :
  startsBatch
    (demoController (Ok [demoClaim None]) (Ok []) None (Some internalError)
       (Ok [rawOf "spot"; rawOf "noop"; rawOf "junk"]) None)
    0%nat [rawOf "spot"; rawOf "noop"; rawOf "junk"] [demoClaim None] [] 4%nat /\
  piecesRun demoNow "interruption"
    (demoController (Ok [demoClaim None]) (Ok []) None (Some internalError)
       (Ok [rawOf "spot"; rawOf "noop"; rawOf "junk"]) None)
    demoCtxDone
    (indexNodeClaims demoParseInstanceID [demoClaim None] ∅)
    (indexNodes demoParseInstanceID [] ∅)
    [rawOf "spot"; rawOf "noop"; rawOf "junk"] 4%nat = true /\
  length (List.filter isDeletedMessagesInc
            (trace_of (Reconcile demoParseInstanceID demoNow "interruption"
                         (demoController (Ok [demoClaim None]) (Ok []) None
                            (Some internalError)
                            (Ok [rawOf "spot"; rawOf "noop"; rawOf "junk"]) None)
                         demoCtxDone 0%nat))) +
  length (multierr_Errors
            (result_of (Reconcile demoParseInstanceID demoNow "interruption"
                          (demoController (Ok [demoClaim None]) (Ok []) None
                             (Some internalError)
                             (Ok [rawOf "spot"; rawOf "noop"; rawOf "junk"]) None)
                          demoCtxDone 0%nat)))
  = 3.
Proof.
  assert (Hs : startsBatch
                 (demoController (Ok [demoClaim None]) (Ok []) None (Some internalError)
                    (Ok [rawOf "spot"; rawOf "noop"; rawOf "junk"]) None)
                 0%nat [rawOf "spot"; rawOf "noop"; rawOf "junk"] [demoClaim None] [] 4%nat).
  { exists true, 1%nat, 2%nat, 3%nat. repeat split. discriminate. }
  assert (Hp : piecesRun demoNow "interruption"
                 (demoController (Ok [demoClaim None]) (Ok []) None (Some internalError)
                    (Ok [rawOf "spot"; rawOf "noop"; rawOf "junk"]) None)
                 demoCtxDone
                 (indexNodeClaims demoParseInstanceID [demoClaim None] ∅)
                 (indexNodes demoParseInstanceID [] ∅)
                 [rawOf "spot"; rawOf "noop"; rawOf "junk"] 4%nat = true)
    by (vm_compute; reflexivity).
  split; [exact Hs|]. split; [exact Hp|].
  destruct (Reconcile_accounts_for_batch demoParseInstanceID demoNow "interruption"
              _ demoCtxDone _ _ _ _ _ Hs) as (_ & _ & Hrun & _).
  destruct (Hrun Hp) as [H _]. exact H.
Defined.

Lemma Reconcile_error_kinds_witness :
  startsBatch
    (demoController (Ok []) (Ok []) None None (Ok [rawOf "junk"]) (Some throttled))
    0%nat [rawOf "junk"] [] [] 4%nat /\
  In (ErrWrap "deleting sqs message, " throttled)
     (multierr_Errors
        (result_of (Reconcile demoParseInstanceID demoNow "interruption"
                      (demoController (Ok []) (Ok []) None None (Ok [rawOf "junk"])
                         (Some throttled)) demoCtxDone 0%nat))) /\
  ((exists h, ErrWrap "deleting sqs message, " throttled =
              ErrWrap "handling message, " (ErrWrap "acting on NodeClaims, " h)) \/
   (exists cause, ErrWrap "deleting sqs message, " throttled =
                  ErrWrap "deleting sqs message, " cause)).
Proof.
  assert (Hs : startsBatch
                 (demoController (Ok []) (Ok []) None None (Ok [rawOf "junk"])
                    (Some throttled))
                 0%nat [rawOf "junk"] [] [] 4%nat).
  { exists true, 1%nat, 2%nat, 3%nat. repeat split. discriminate. }
  assert (Hin : In (ErrWrap "deleting sqs message, " throttled)
                   (multierr_Errors
                      (result_of (Reconcile demoParseInstanceID demoNow "interruption"
                                    (demoController (Ok []) (Ok []) None None
                                       (Ok [rawOf "junk"]) (Some throttled)) demoCtxDone 0%nat))))
    by (vm_compute; left; reflexivity).
  split; [exact Hs|]. split; [exact Hin|].
  exact (Reconcile_error_kinds demoParseInstanceID demoNow "interruption"
           _ demoCtxDone _ _ _ _ _ _ Hs Hin).
Defined.

Lemma Reconcile_touches_only_listed_witness :
  startsBatch
    (demoController (Ok [demoClaim None]) (Ok []) None None (Ok [rawOf "spot"]) None)
    0%nat [rawOf "spot"] [demoClaim None] [] 4%nat /\
  In (KubeDelete (demoClaim None) None)
     (trace_of (Reconcile demoParseInstanceID demoNow "interruption"
                  (demoController (Ok [demoClaim None]) (Ok []) None None
                     (Ok [rawOf "spot"]) None) demoCtxDone 0%nat)) /\
  In (demoClaim None) [demoClaim None].
Proof.
  assert (Hs : startsBatch
                 (demoController (Ok [demoClaim None]) (Ok []) None None
                    (Ok [rawOf "spot"]) None)
                 0%nat [rawOf "spot"] [demoClaim None] [] 4%nat).
  { exists true, 1%nat, 2%nat, 3%nat. repeat split. discriminate. }
  assert (Hin : In (KubeDelete (demoClaim None) None)
                   (trace_of (Reconcile demoParseInstanceID demoNow "interruption"
                                (demoController (Ok [demoClaim None]) (Ok []) None None
                                   (Ok [rawOf "spot"]) None) demoCtxDone 0%nat)))
    by (vm_compute; auto 20).
  split; [exact Hs|]. split; [exact Hin|].
  destruct (Reconcile_touches_only_listed demoParseInstanceID demoNow "interruption"
              _ demoCtxDone _ _ _ _ _ Hs) as [Hd _].
  destruct (Hd _ _ Hin) as (Hc & _). exact Hc.
Defined.

Lemma handleMessage_events_correlated_witness :
  In (Publish SpotInterrupted None (demoClaim None))
     (trace_of (handleMessage demoNow "interruption"
                  (demoController (Ok []) (Ok []) None None (Ok []) None)
                  (indexNodeClaims demoParseInstanceID [demoClaim None] ∅) ∅
                  spotMessage 0%nat)) /\
  msgKind spotMessage <> NoOpKind.
Proof.
  assert (Hin : In (Publish SpotInterrupted None (demoClaim None))
                   (trace_of (handleMessage demoNow "interruption"
                                (demoController (Ok []) (Ok []) None None (Ok []) None)
                                (indexNodeClaims demoParseInstanceID [demoClaim None] ∅) ∅
                                spotMessage 0%nat)))
    by (vm_compute; auto 20).
  split; [exact Hin|].
  destruct (handleMessage_events_correlated demoNow "interruption" _ _ _ _ _ _ _ _ Hin)
    as [K _].
  exact K.
Defined.

Lemma Reconcile_deletes_unparsed_message_witness :
  startsPiece demoParseInstanceID demoNow "interruption"
    (demoController (Ok []) (Ok []) None None (Ok [rawOf "spot"; rawOf "junk"]) None)
    demoCtxDone 0%nat [rawOf "spot"] (rawOf "junk") []
    (indexNodeClaims demoParseInstanceID [] ∅) (indexNodes demoParseInstanceID [] ∅)
    5%nat /\
  parseMessage (demoController (Ok []) (Ok []) None None (Ok [rawOf "spot"; rawOf "junk"]) None)
    (rawOf "junk")
    = Err (ErrWrap "parsing sqs message, " (ErrLeaf None "unmarshalling the message")) /\
  In (QueueDelete (rawOf "junk") None)
     (trace_of (Reconcile demoParseInstanceID demoNow "interruption"
                  (demoController (Ok []) (Ok []) None None
                     (Ok [rawOf "spot"; rawOf "junk"]) None)
                  demoCtxDone 0%nat)).
Proof.
  assert (Hs : startsPiece demoParseInstanceID demoNow "interruption"
                 (demoController (Ok []) (Ok []) None None
                    (Ok [rawOf "spot"; rawOf "junk"]) None)
                 demoCtxDone 0%nat [rawOf "spot"] (rawOf "junk") []
                 (indexNodeClaims demoParseInstanceID [] ∅)
                 (indexNodes demoParseInstanceID [] ∅) 5%nat).
  { exists true, 1%nat, 2%nat, [], 3%nat, [], 4%nat. repeat split. }
  split; [exact Hs|]. split; [reflexivity|].
  destruct (Reconcile_deletes_unparsed_message demoParseInstanceID demoNow "interruption"
              (demoController (Ok []) (Ok []) None None
                 (Ok [rawOf "spot"; rawOf "junk"]) None) demoCtxDone)
    as (_ & _ & H & _).
  specialize (H _ _ _ _ _ _ _ _ Hs eq_refl). cbn zeta in H.
  destruct H as (_ & _ & _ & H & _). exact H.
Defined.
